(** * excel_to_postgres: a shallow embedding of dags/excel_to_postgres.py

    The DAG has three tasks: [list_excel_files] scans the incoming
    directory, [validate_and_transform] turns one workbook into a CSV
    artifact, and [load_upsert] copies the artifact into a staging table and
    merges it into [sales_daily].  Each task is embedded as a function on an
    explicit [World] (the three directories and the target table) that
    returns either a value or the exception it raises. *)

From Stdlib Require Import ZArith QArith String Ascii.
From stdpp Require Import gmap strings list sorting.

Local Open Scope string_scope.
Local Open Scope list_scope.

(** ** Values held by DataFrame cells *)

Record date := Date { year : Z; month : Z; day : Z }.

(** [read_excel] yields blank cells as [NaN], numbers as [Num], text as
    [Str] and date cells as [Timestamp]; the other constructors only appear
    after the casts of [validate_and_transform]. *)
Inductive value :=
| NaN
| PyNone
| NaT
| Num (q : Q)
| Int64 (z : Z)
| Str (s : string)
| Timestamp (d : date) (ns_of_day : Z)
| DateObj (d : date).

(** [pd.isna] on a scalar. *)
Definition isna (v : value) : bool :=
  match v with
  | NaN | PyNone | NaT => true
  | _ => false
  end.

(** ** Exceptions and task results *)

Inductive db_step := Connect | CreateStaging | Copy | Merge | Commit.

Global Instance db_step_eq_dec : EqDecision db_step.
Proof. solve_decision. Defined.

Inductive exn :=
| FileNotFoundError (path : string)
| BadZipFile (path : string)
| KeyError (column : string)
| MissingColumns (missing found : list string)
| UnableToParse (v : value)
| IntCastingNaNError
| NoExcelFiles
| TransformFailed (name : string) (cause : exn)
| OperationalError (at_step : db_step)
| BadCopyFileFormat
| NotNullViolation
| CardinalityViolation (key : Z).

Inductive result (A : Type) :=
| Ok (a : A)
| Raise (e : exn).
Arguments Ok {A} a.
Arguments Raise {A} e.

Global Instance result_ret : MRet result := @Ok.
Global Instance result_bind : MBind result := λ A B f r,
  match r with
  | Ok a => f a
  | Raise e => Raise e
  end.

(** ** DataFrames: ordered column labels, one label-indexed map per row *)

Record DataFrame := Frame {
  columns : list string;
  rows : list (gmap string value)
}.

(** ** Files, directories and the target table *)

Inductive file :=
| Workbook (df : DataFrame)
| CsvFile (header : list string) (records : list (list value))
| OtherFile.

(** The four non-key columns of [sales_daily]. *)
Record sales_cols := SalesCols {
  salescode : option string;
  dateorder : option date;
  totalsales : option Q;
  brand : option string
}.

Record World := MkWorld {
  incoming_dir : gmap string file;
  archive_dir : gmap string file;
  error_dir : gmap string file;
  sales_daily : gmap Z sales_cols
}.

(** A task runs on the world and either returns or raises; the world it
    leaves behind keeps whatever was done before the exception. *)
Definition task (A : Type) : Type := World → result A * World.

Global Instance task_ret : MRet task := λ A a w, (Ok a, w).
Global Instance task_bind : MBind task := λ A B k m w,
  match m w with
  | (Ok a, w') => k a w'
  | (Raise e, w') => (Raise e, w')
  end.
Definition raise {A} (e : exn) : task A := λ w, (Raise e, w).
Definition lift {A} (r : result A) : task A := λ w, (r, w).

(** [try: body except Exception as e: handler e] *)
Definition try_except {A} (body : task A) (handler : exn → task A) : task A :=
  λ w,
  match body w with
  | (Ok a, w') => (Ok a, w')
  | (Raise e, w') => handler e w'
  end.

(** ** Paths *)

Inductive dir := INCOMING_DIR | ARCHIVE_DIR | ERROR_DIR.

(** A path below [BASE_DIR]: one of the three directories and a file name. *)
Record path := Path { parent : dir; name : string }.

Global Instance dir_eq_dec : EqDecision dir.
Proof. solve_decision. Defined.
Global Instance path_eq_dec : EqDecision path.
Proof. solve_decision. Defined.

Definition listing (d : dir) (w : World) : gmap string file :=
  match d with
  | INCOMING_DIR => incoming_dir w
  | ARCHIVE_DIR => archive_dir w
  | ERROR_DIR => error_dir w
  end.

Definition set_listing (d : dir) (m : gmap string file) (w : World) : World :=
  match d with
  | INCOMING_DIR => MkWorld m (archive_dir w) (error_dir w) (sales_daily w)
  | ARCHIVE_DIR => MkWorld (incoming_dir w) m (error_dir w) (sales_daily w)
  | ERROR_DIR => MkWorld (incoming_dir w) (archive_dir w) m (sales_daily w)
  end.

Definition read_file (p : path) (w : World) : option file :=
  listing (parent p) w !! name p.

Definition write_file (p : path) (f : file) (w : World) : World :=
  set_listing (parent p) (<[name p := f]> (listing (parent p) w)) w.

Definition remove_file (p : path) (w : World) : World :=
  set_listing (parent p) (delete (name p) (listing (parent p) w)) w.

(** [shutil.move(src, dst)] for a destination that names a file: a rename
    that replaces whatever was at [dst]. *)
Definition shutil_move (src dst : path) : task unit := λ w,
  match read_file src w with
  | None => (Raise (FileNotFoundError (name src)), w)
  | Some f => (Ok tt, write_file dst f (remove_file src w))
  end.

(** [Path.unlink(missing_ok=True)] *)
Definition unlink_missing_ok (p : path) : task unit := λ w,
  (Ok tt, remove_file p w).

(** [str.startswith] *)
Definition startswith (pre s : string) : bool := String.prefix pre s.

(** [str.rfind(".")] *)
Fixpoint rfind_dot (s : string) : option nat :=
  match s with
  | EmptyString => None
  | String c s' =>
      match rfind_dot s' with
      | Some i => Some (S i)
      | None => if Ascii.eqb c "." then Some 0%nat else None
      end
  end.

(** [PurePath.suffix]: the last dot-separated part of the name, unless the
    only dot leads the name or ends it. *)
Definition suffix_of_name (n : string) : string :=
  match rfind_dot n with
  | Some i =>
      if (0 <? i)%nat && (i <? String.length n - 1)%nat
      then substring i (String.length n - i) n
      else ""
  | None => ""
  end.

(** [PurePath.stem] *)
Definition stem (n : string) : string :=
  substring 0 (String.length n - String.length (suffix_of_name n)) n.

(** [PurePath.with_suffix] *)
Definition with_suffix (p : path) (suffix : string) : path :=
  Path (parent p) (stem (name p) +:+ suffix).

(** The name matching of [Path.glob] within one directory, for patterns made
    of literal characters, [*] and [?].  POSIX paths match case-sensitively. *)
Fixpoint fnmatch (pat : string) : string → bool :=
  match pat with
  | EmptyString => λ s, match s with EmptyString => true | _ => false end
  | String "*" pat' =>
      fix star (s : string) : bool :=
        fnmatch pat' s ||
        match s with
        | EmptyString => false
        | String _ s' => star s'
        end
  | String "?" pat' => λ s,
      match s with
      | EmptyString => false
      | String _ s' => fnmatch pat' s'
      end
  | String c pat' => λ s,
      match s with
      | EmptyString => false
      | String d s' => Ascii.eqb c d && fnmatch pat' s'
      end
  end.

Definition glob (d : dir) (pattern : string) (w : World) : list path :=
  Path d <$> filter (λ n, fnmatch pattern n = true) (elements (dom (listing d w))).

(** Paths in one directory sort by name, code point by code point. *)
Definition path_le (p q : path) : Prop := String.le (name p) (name q).
Global Instance path_le_dec : RelDecision path_le.
Proof. intros p q. unfold path_le. apply _. Defined.

(** ** Task 1: list_excel_files *)

(** The three [mkdir(parents=True, exist_ok=True)] calls are no-ops here:
    every [World] has the three directories. *)
Definition list_excel_files : task (list path) := λ w,
  let files := concat (map (λ pattern, glob INCOMING_DIR pattern w)
                           ["*.xlsx"; "*.XLSX"]) in
  let files := filter (λ f, startswith "~$" (name f) = false)
                 (merge_sort path_le (remove_dups files)) in
  match files with
  | [] => (Raise NoExcelFiles, w)
  | _ => (Ok files, w)
  end.

(** ** pandas: scalar conversions *)

(** The library's parsers and printers for single values are taken as given:
    which strings [pd.to_numeric] and [pd.to_datetime] accept, what they make
    of a value of the other kind, and how [str] prints numbers and dates. *)
Class Scalars := {
  parse_numeric : string → option Q;
  parse_datetime : string → option date;
  numeric_of_datetime : date → Z → option Q;
  datetime_of_numeric : Q → option date;
  py_str : value → string
}.

Inductive coerced (A : Type) :=
| Parsed (a : A)
| Missing
| Invalid.
Arguments Parsed {A} a.
Arguments Missing {A}.
Arguments Invalid {A}.

Definition of_option {A} (o : option A) : coerced A :=
  match o with
  | Some a => Parsed a
  | None => Invalid
  end.

(** [str.isspace] on the ASCII range. *)
Definition py_isspace (c : ascii) : bool :=
  let n := nat_of_ascii c in
  ((9 <=? n) && (n <=? 13) || (28 <=? n) && (n <=? 32))%nat.

Fixpoint lstrip (s : string) : string :=
  match s with
  | EmptyString => EmptyString
  | String c s' => if py_isspace c then lstrip s' else s
  end.

(** [str.strip()] *)
Definition strip (s : string) : string :=
  String.rev (lstrip (String.rev (lstrip s))).

Definition min_int64 : Z := - 2 ^ 63.
Definition max_int64 : Z := 2 ^ 63 - 1.

(** The float64 to int64 cast truncates toward zero; a value out of range
    gives the platform's indefinite integer. *)
Definition float_to_int64 (q : Q) : Z :=
  let z := Z.quot (Qnum q) (Zpos (Qden q)) in
  if (min_int64 <=? z)%Z && (z <=? max_int64)%Z then z else min_int64.

Section pandas.
Context `{Scalars}.

Definition to_numeric_scalar (v : value) : coerced Q :=
  match v with
  | NaN | PyNone | NaT => Missing
  | Num q => Parsed q
  | Int64 z => Parsed (inject_Z z)
  | Str s => of_option (parse_numeric s)
  | Timestamp d t => of_option (numeric_of_datetime d t)
  | DateObj d => of_option (numeric_of_datetime d 0)
  end.

Definition to_datetime_scalar (v : value) : coerced date :=
  match v with
  | NaN | PyNone | NaT => Missing
  | Num q => of_option (datetime_of_numeric q)
  | Int64 z => of_option (datetime_of_numeric (inject_Z z))
  | Str s => of_option (parse_datetime s)
  | Timestamp d _ => Parsed d
  | DateObj d => Parsed d
  end.

(** Column operations apply one scalar conversion to every value. *)

Definition numeric_or_raise (v : value) : result value :=
  match to_numeric_scalar v with
  | Parsed q => Ok (Num q)
  | Missing => Ok NaN
  | Invalid => Raise (UnableToParse v)
  end.

Definition numeric_or_nan (v : value) : value :=
  match to_numeric_scalar v with
  | Parsed q => Num q
  | _ => NaN
  end.

Definition int64_of (v : value) : result value :=
  match v with
  | Num q => Ok (Int64 (float_to_int64 q))
  | Int64 z => Ok (Int64 z)
  | NaN | PyNone | NaT => Raise IntCastingNaNError
  | _ => Raise (UnableToParse v)
  end.

(** [str(v)]: a missing value becomes the text of its name. *)
Definition str_of (v : value) : value :=
  Str match v with
      | Str s => s
      | NaN => "nan"
      | PyNone => "None"
      | NaT => "NaT"
      | _ => py_str v
      end.

Definition stripped (v : value) : value :=
  match v with
  | Str s => Str (strip s)
  | _ => NaN
  end.

Definition date_or_nat (v : value) : value :=
  match to_datetime_scalar v with
  | Parsed d => DateObj d
  | _ => NaT
  end.

Definition fill (x v : value) : value := if isna v then x else v.

(** [pd.to_numeric(col, errors="raise")] *)
Definition to_numeric_raise (col : list value) : result (list value) :=
  mapM numeric_or_raise col.

(** [pd.to_numeric(col, errors="coerce")] *)
Definition to_numeric_coerce (col : list value) : list value :=
  numeric_or_nan <$> col.

(** [col.astype("int64")] *)
Definition astype_int64 (col : list value) : result (list value) :=
  mapM int64_of col.

(** [col.astype(str)] *)
Definition astype_str (col : list value) : list value := str_of <$> col.

(** [col.str.strip()] *)
Definition str_strip (col : list value) : list value := stripped <$> col.

(** [pd.to_datetime(col, errors="coerce").dt.date] *)
Definition to_datetime_coerce_date (col : list value) : list value :=
  date_or_nat <$> col.

(** [col.fillna(x)] *)
Definition fillna (x : value) (col : list value) : list value :=
  fill x <$> col.

(** ** pandas: frames *)

Definition cell (c : string) (r : gmap string value) : value :=
  default NaN (r !! c).

(** [df[c]] *)
Definition getitem (c : string) (df : DataFrame) : result (list value) :=
  if decide (c ∈ columns df) then Ok (cell c <$> rows df)
  else Raise (KeyError c).

(** [df[c] = col] *)
Definition setitem (c : string) (col : list value) (df : DataFrame) : DataFrame :=
  Frame (if decide (c ∈ columns df) then columns df else columns df ++ [c])
        (zip_with (λ r v, <[c := v]> r) (rows df) col).

(** [df[c] = x] for a scalar [x] *)
Definition setitem_scalar (c : string) (x : value) (df : DataFrame) : DataFrame :=
  Frame (if decide (c ∈ columns df) then columns df else columns df ++ [c])
        ((λ r, <[c := x]> r) <$> rows df).

(** [df[cs]] for a list of labels *)
Definition select (cs : list string) (df : DataFrame) : result DataFrame :=
  match filter (λ c, c ∉ columns df) cs with
  | [] => Ok (Frame cs ((λ r, list_to_map ((λ c, (c, cell c r)) <$> cs)) <$> rows df))
  | c :: _ => Raise (KeyError c)
  end.

Definition rename_label (mapping : list (string * string)) (c : string) : string :=
  default c (list_to_map (M:=gmap string string) mapping !! c).

(** [df.rename(columns=mapping)] *)
Definition rename (mapping : list (string * string)) (df : DataFrame) : DataFrame :=
  Frame (rename_label mapping <$> columns df)
        ((λ r, list_to_map ((λ c, (rename_label mapping c, cell c r)) <$> columns df))
           <$> rows df).

(** [df.dropna(subset=cs)] *)
Definition dropna (cs : list string) (df : DataFrame) : result DataFrame :=
  match filter (λ c, c ∉ columns df) cs with
  | [] => Ok (Frame (columns df)
                (filter (λ r, Forall (λ c, isna (cell c r) = false) cs) (rows df)))
  | c :: _ => Raise (KeyError c)
  end.
End pandas.

(** ** Task 2: validate_and_transform *)

(** Source column -> final column. *)
Definition REQ_COLUMNS : list (string * string) :=
  [ ("id", "id");
    ("name_sales_code", "salescode");
    ("date_order", "dateorder");
    ("amount_total", "totalsales");
    ("brand", "brand") ].

Record payload := Payload { filepath : path; tmp_csv : path }.

(** [pd.read_excel(p, engine="openpyxl")] *)
Definition read_excel (p : path) : task DataFrame := λ w,
  match read_file p w with
  | Some (Workbook df) => (Ok df, w)
  | Some _ => (Raise (BadZipFile (name p)), w)
  | None => (Raise (FileNotFoundError (name p)), w)
  end.

(** [df.to_csv(p, index=False)]: the header line, then one record per row
    with the fields in column order. *)
Definition to_csv (df : DataFrame) (p : path) : task unit := λ w,
  (Ok tt, write_file p (CsvFile (columns df)
                          ((λ r, (λ c, cell c r) <$> columns df) <$> rows df)) w).

Section transform.
Context `{Scalars}.

(** Validasi kolom minimal *)
Definition check_columns (df : DataFrame) : result unit :=
  let missing := filter (λ c, c ∉ columns df) (REQ_COLUMNS.*1) in
  match missing with
  | [] => Ok tt
  | _ => Raise (MissingColumns missing (columns df))
  end.

(** Subset + rename *)
Definition subset_rename (df : DataFrame) : result DataFrame :=
  df ← select (REQ_COLUMNS.*1) df;
  Ok (rename REQ_COLUMNS df).

(** Casting + clean *)
Definition cast_and_clean (df : DataFrame) : result DataFrame :=
  col ← getitem "id" df;
  col ← to_numeric_raise col;
  col ← astype_int64 col;
  let df := setitem "id" col df in
  col ← getitem "salescode" df;
  let df := setitem "salescode" (str_strip (astype_str col)) df in
  col ← getitem "dateorder" df;
  let df := setitem "dateorder" (to_datetime_coerce_date col) df in
  col ← getitem "totalsales" df;
  let df := setitem "totalsales" (fillna (Num 0) (to_numeric_coerce col)) df in
  if decide ("brand" ∈ columns df) then
    col ← getitem "brand" df;
    Ok (setitem "brand" (str_strip (astype_str col)) df)
  else
    Ok (setitem_scalar "brand" PyNone df).

(** Drop baris invalid *)
Definition drop_invalid (df : DataFrame) : result DataFrame :=
  dropna ["id"; "dateorder"] df.

(** The frame up to the casts: the normalized records, before any row is
    dropped. *)
Definition normalize (df : DataFrame) : result DataFrame :=
  check_columns df;;
  df ← subset_rename df;
  cast_and_clean df.

(** The frame work of the [try] block, from the header check to the
    [dropna]. *)
Definition transform_frame (df : DataFrame) : result DataFrame :=
  df ← normalize df;
  drop_invalid df.

Definition transform_body (p : path) : task payload :=
  df ← read_excel p;
  df ← lift (transform_frame df);
  let tmp_csv := with_suffix p ".csv" in
  to_csv df tmp_csv;;
  mret (Payload p tmp_csv).

Definition validate_and_transform (file_path : path) : task payload :=
  let p := file_path in
  try_except (transform_body p)
    (λ e,
       try_except (shutil_move p (Path ERROR_DIR (name p)))
                  (λ _, mret tt);;
       raise (TransformFailed (name p) e)).
End transform.

(** ** Task 3: load_upsert *)

(** A row of the staging table; none of its columns is constrained. *)
Record staging_row := StagingRow { id : option Z; cols : sales_cols }.

(** [COPY ... FROM STDIN WITH CSV HEADER] reads fields by position.  An
    empty unquoted field, which is how [to_csv] writes a missing value and
    the empty string, is NULL; otherwise the field must be what [to_csv]
    writes for a value of the column's type. *)
Definition copy_bigint (v : value) : result (option Z) :=
  match v with
  | NaN | PyNone | NaT => Ok None
  | Int64 z => Ok (Some z)
  | _ => Raise BadCopyFileFormat
  end.

Definition copy_date (v : value) : result (option date) :=
  match v with
  | NaN | PyNone | NaT => Ok None
  | DateObj d => Ok (Some d)
  | _ => Raise BadCopyFileFormat
  end.

Definition copy_numeric (v : value) : result (option Q) :=
  match v with
  | NaN | PyNone | NaT => Ok None
  | Num q => Ok (Some q)
  | Int64 z => Ok (Some (inject_Z z))
  | _ => Raise BadCopyFileFormat
  end.

Definition copy_text (v : value) : result (option string) :=
  match v with
  | NaN | PyNone | NaT => Ok None
  | Str s => Ok (if decide (s = "") then None else Some s)
  | _ => Raise BadCopyFileFormat
  end.

Definition copy_record (fields : list value) : result staging_row :=
  match fields with
  | [f_id; f_salescode; f_dateorder; f_totalsales; f_brand] =>
      i ← copy_bigint f_id;
      s ← copy_text f_salescode;
      d ← copy_date f_dateorder;
      t ← copy_numeric f_totalsales;
      b ← copy_text f_brand;
      Ok (StagingRow i (SalesCols s d t b))
  | _ => Raise BadCopyFileFormat
  end.

(** [INSERT INTO sales_daily ... SELECT ... FROM staging ON CONFLICT (id)
    DO UPDATE SET ...]: every staging row is inserted, or overwrites the four
    non-key columns of the row that has its id.  The primary key rejects a
    NULL id, and the statement refuses to touch a row it has itself inserted
    or updated. *)
Fixpoint upsert (staging : list staging_row) (touched : gset Z)
    (table : gmap Z sales_cols) : result (gmap Z sales_cols) :=
  match staging with
  | [] => Ok table
  | r :: staging =>
      match id r with
      | None => Raise NotNullViolation
      | Some k =>
          if decide (k ∈ touched) then Raise (CardinalityViolation k)
          else upsert staging ({[k]} ∪ touched) (<[k := cols r]> table)
      end
  end.

(** The database is outside the program: [fault] names the step, if any, at
    which the driver raises for a reason of its own. *)
Definition db_step_ok (fault : option db_step) (s : db_step) : result unit :=
  if decide (fault = Some s) then Raise (OperationalError s) else Ok tt.

(** [open(tmp_csv)] and [cur.copy_expert] *)
Definition copy_expert (fault : option db_step) (p : path) : task (list staging_row) := λ w,
  match read_file p w with
  | None => (Raise (FileNotFoundError (name p)), w)
  | Some f =>
      (db_step_ok fault Copy;;
       match f with
       | CsvFile _ records => mapM copy_record records
       | _ => Raise BadCopyFileFormat
       end, w)
  end.

(** [conn.commit()]: only now does the merged table replace the old one. *)
Definition commit (fault : option db_step) (table : gmap Z sales_cols) : task unit := λ w,
  match db_step_ok fault Commit with
  | Ok _ => (Ok tt, MkWorld (incoming_dir w) (archive_dir w) (error_dir w) table)
  | Raise e => (Raise e, w)
  end.

(** Everything between [hook.get_conn()] and [conn.close()]. *)
Definition db_work (fault : option db_step) (tmp_csv : path) : task unit :=
  lift (db_step_ok fault Connect);;
  lift (db_step_ok fault CreateStaging);;
  staging ← copy_expert fault tmp_csv;
  table ← (λ w, (db_step_ok fault Merge;; upsert staging ∅ (sales_daily w), w));
  commit fault table.

Definition load_upsert (fault : option db_step) (payload : payload) : task unit :=
  let file_path := filepath payload in
  let tmp_csv := tmp_csv payload in
  db_work fault tmp_csv;;
  (* Cleanup + arsip *)
  unlink_missing_ok tmp_csv;;
  shutil_move file_path (Path ARCHIVE_DIR (name file_path)).

(** ** A small instance of the scalar conversions, to run the tasks

    It reads plain decimal integers such as [42] and [-7] as numbers and ISO
    dates such as [2025-01-31] as dates, and nothing else. *)
Module Plain.
Fixpoint digits (s : string) (acc : Z) : option Z :=
  match s with
  | EmptyString => Some acc
  | String c s' =>
      match Ascii.is_nat c with
      | Some d => digits s' (10 * acc + Z.of_nat d)
      | None => None
      end
  end.

Definition integer (s : string) : option Z :=
  match s with
  | EmptyString => None
  | String "-" (String c s') => Z.opp <$> digits (String c s') 0
  | _ => digits s 0
  end.

Definition iso_date (s : string) : option date :=
  if decide (String.length s = 10%nat) then
    match integer (substring 0 4 s), integer (substring 5 2 s),
          integer (substring 8 2 s) with
    | Some y, Some m, Some d =>
        if Ascii.eqb (default "x"%char (String.get 4 s)) "-"
           && Ascii.eqb (default "x"%char (String.get 7 s)) "-"
        then Some (Date y m d) else None
    | _, _, _ => None
    end
  else None.

Definition scalars : Scalars := {|
  parse_numeric s := inject_Z <$> integer (strip s);
  parse_datetime s := iso_date (strip s);
  numeric_of_datetime _ _ := None;
  datetime_of_numeric _ := None;
  py_str _ := "?"
|}.
End Plain.

(** ** Vocabulary for the statements *)

(** A name that one of the two glob patterns accepts. *)
Definition excel_name (n : string) : Prop :=
  (∃ k, n = k +:+ ".xlsx") ∨ (∃ k, n = k +:+ ".XLSX").

(** [str.lower] on the ASCII range, and an extension compared without
    regard to case. *)
Definition ascii_lower (c : ascii) : ascii :=
  let n := nat_of_ascii c in
  if (65 <=? n)%nat && (n <=? 90)%nat then ascii_of_nat (n + 32) else c.

Fixpoint lower (s : string) : string :=
  match s with
  | EmptyString => EmptyString
  | String c s' => String (ascii_lower c) (lower s')
  end.

Definition xlsx_extension_ignoring_case (n : string) : Prop :=
  lower (suffix_of_name n) = ".xlsx".

Definition FINAL_COLUMNS : list string := REQ_COLUMNS.*2.

Definition has_required_columns (df : DataFrame) : Prop :=
  Forall (λ c, c ∈ columns df) (REQ_COLUMNS.*1).

(** A source row seen through the final labels. *)
Definition renamed_row (r : gmap string value) : gmap string value :=
  list_to_map ((λ '(src, dst), (dst, cell src r)) <$> REQ_COLUMNS).

Section rows.
Context `{Scalars}.

(** What the two casts of the id column do to one of its cells. *)
Definition cast_id (v : value) : result value :=
  numeric_or_raise v ≫= int64_of.

(** The record that the casts make of source row [r], given its id. *)
Definition normalized_row (i : value) (r : gmap string value) : gmap string value :=
  <["brand" := stripped (str_of (cell "brand" r))]>
  (<["totalsales" := fill (Num 0) (numeric_or_nan (cell "amount_total" r))]>
  (<["dateorder" := date_or_nat (cell "date_order" r)]>
  (<["salescode" := stripped (str_of (cell "name_sales_code" r))]>
  (<["id" := i]> (renamed_row r))))).
End rows.

(** ** Sample inputs *)

Module Sample.
Definition header : list string :=
  ["id"; "name_sales_code"; "date_order"; "amount_total"; "brand"].

Definition row (i s d a b : value) : gmap string value :=
  list_to_map [("id", i); ("name_sales_code", s); ("date_order", d);
               ("amount_total", a); ("brand", b)].

Definition sheet (rs : list (gmap string value)) : DataFrame := Frame header rs.

Definition only (n : string) (f : file) : World :=
  MkWorld {[n := f]} ∅ ∅ ∅.

Definition day (d : Z) : date := Date 2025 1 d.

(** One good row. *)
Definition good : DataFrame :=
  sheet [row (Num 1) (Str " S1 ") (Str "2025-01-02") (Num 10) (Str "acme")].

(** The same header without [brand]. *)
Definition no_brand : DataFrame :=
  Frame ["id"; "name_sales_code"; "date_order"; "amount_total"]
        [list_to_map [("id", Num 1); ("name_sales_code", Str "S1");
                      ("date_order", Str "2025-01-02"); ("amount_total", Num 10)]].

(** A blank id next to a good row. *)
Definition blank_id : DataFrame :=
  sheet [row (Num 1) (Str "S1") (Str "2025-01-02") (Num 10) (Str "acme");
         row NaN (Str "S2") (Str "2025-01-03") (Num 20) (Str "acme")].

(** An id that is not a number. *)
Definition text_id : DataFrame :=
  sheet [row (Str "abc") (Str "S1") (Str "2025-01-02") (Num 10) (Str "acme")].

(** An amount that is not a number, and a negative one. *)
Definition amounts : DataFrame :=
  sheet [row (Num 1) (Str "S1") (Str "2025-01-02") (Str "abc") (Str "acme");
         row (Num 2) (Str "S2") (Str "2025-01-03") (Num (-5)) (Str "acme")].

(** Blank text cells. *)
Definition blank_text : DataFrame :=
  sheet [row (Num 1) NaN (Str "2025-01-02") (Num 10) NaN].

Definition csv_header : list string :=
  ["id"; "salescode"; "dateorder"; "totalsales"; "brand"].

(** Two artifacts that carry id 1 with different values, and one that
    carries it twice. *)
Definition january : file :=
  CsvFile csv_header [[Int64 1; Str "S1"; DateObj (day 2); Num 10; Str "acme"]].
Definition february : file :=
  CsvFile csv_header [[Int64 1; Str "S9"; DateObj (day 9); Num 999; Str "zen"]].
Definition twice : file :=
  CsvFile csv_header [[Int64 1; Str "S1"; DateObj (day 2); Num 10; Str "acme"];
                      [Int64 1; Str "S9"; DateObj (day 9); Num 999; Str "zen"]].

Definition incoming (n : string) : path := Path INCOMING_DIR n.
Definition payload_of (n : string) : payload :=
  Payload (incoming n) (with_suffix (incoming n) ".csv").

Definition two_files : World :=
  MkWorld (list_to_map [("jan.xlsx", Workbook good); ("jan.csv", january);
                        ("feb.xlsx", Workbook good); ("feb.csv", february)])
          ∅ ∅ ∅.
Definition after_january : World :=
  (load_upsert None (payload_of "jan.xlsx") two_files).2.
Definition after_february : World :=
  (load_upsert None (payload_of "feb.xlsx") after_january).2.

Definition repeated_id : World :=
  MkWorld (list_to_map [("dup.xlsx", Workbook good); ("dup.csv", twice)]) ∅ ∅ ∅.

Definition transformed : World :=
  (validate_and_transform (H := Plain.scalars) (incoming "good.xlsx")
     (only "good.xlsx" (Workbook good))).2.
Definition loaded : World :=
  (load_upsert None (payload_of "good.xlsx") transformed).2.

Definition normalized (df : DataFrame) : DataFrame :=
  match normalize (H := Plain.scalars) df with
  | Ok nf => nf
  | Raise _ => Frame [] []
  end.
End Sample.

(** ** The staging table's name *)

(** [str.isalnum] on the ASCII range. *)
Definition py_isalnum (c : ascii) : bool :=
  let n := nat_of_ascii c in
  ((48 <=? n) && (n <=? 57) || (65 <=? n) && (n <=? 90) ||
   (97 <=? n) && (n <=? 122))%nat.

(** ["".join(ch if (ch.isalnum() or ch == "_") else "_" for ch in stem.lower())] *)
Fixpoint join_safe (s : string) : string :=
  match s with
  | EmptyString => EmptyString
  | String ch s' =>
      String (if py_isalnum ch || Ascii.eqb ch "_" then ch else "_"%char)
             (join_safe s')
  end.

Definition safe_stem (stem : string) : string := join_safe (lower stem).

Definition staging_table (file_path : path) : string :=
  "stg_sales_daily_" +:+ safe_stem (stem (name file_path)).

Definition is_ascii (c : ascii) : Prop := (nat_of_ascii c < 128)%nat.

Global Instance is_ascii_dec c : Decision (is_ascii c).
Proof. unfold is_ascii. apply _. Defined.

(** A lower-case letter, a digit or the underscore. *)
Definition identifier_char (c : ascii) : bool :=
  let n := nat_of_ascii c in
  ((48 <=? n) && (n <=? 57) || (97 <=? n) && (n <=? 122) || (n =? 95))%nat.

(** ** Vocabulary for the normalized records *)

(** Text that neither starts nor ends with white space. *)
Definition trimmed (s : string) : Prop :=
  (∀ c rest, s = String c rest → py_isspace c = false) ∧
  (∀ c front, s = front +:+ String c "" → py_isspace c = false).

(** A list of characters that does not start with white space. *)
Definition starts_clean (l : list ascii) : Prop :=
  match l with
  | [] => True
  | c :: _ => py_isspace c = false
  end.


(** A record whose five fields have the types of the staging table. *)
Definition typed_record (r : gmap string value) : Prop :=
  ∃ z s d q b,
    cell "id" r = Int64 z ∧ cell "salescode" r = Str s ∧
    cell "dateorder" r = DateObj d ∧ cell "totalsales" r = Num q ∧
    cell "brand" r = Str b.

Section dates.
Context `{Scalars}.

(** The cell reads as a date under [pd.to_datetime(errors="coerce")]. *)
Definition reads_as_date (v : value) : bool :=
  match to_datetime_scalar v with
  | Parsed _ => true
  | _ => false
  end.

End dates.

(** ** More sample inputs *)

Module More.
(** [Sample.good] with a column the pipeline does not know and the columns
    in another order. *)
Definition with_note : DataFrame :=
  Frame ["note"; "brand"; "amount_total"; "date_order"; "name_sales_code"; "id"]
        [<["note" := Str "call back"]>
           (Sample.row (Num 1) (Str " S1 ") (Str "2025-01-02") (Num 10) (Str "acme"))].

(** Three rows, the second without a date. *)
Definition three_rows : DataFrame :=
  Sample.sheet
    [Sample.row (Num 1) (Str " S1 ") (Str "2025-01-02") (Num 10) (Str "acme ");
     Sample.row (Num 2) (Str "S2") NaN (Num 20) (Str "acme");
     Sample.row (Num 3) (Str "S3") (Str "2025-01-04") (Num 30) NaN].

Definition transformed (df : DataFrame) : DataFrame :=
  match transform_frame (H := Plain.scalars) df with
  | Ok out => out
  | Raise _ => Frame [] []
  end.

Definition first_out : gmap string value :=
  default ∅ (head (rows (transformed three_rows))).

(** The same rows under two names. *)
Definition same_rows : World :=
  MkWorld (list_to_map [("a.xlsx", Workbook Sample.good); ("a.csv", Sample.january);
                        ("b.xlsx", Workbook Sample.good); ("b.csv", Sample.january)])
          ∅ ∅ (<[7%Z := SalesCols None None None None]> ∅).
Definition after_a : World :=
  (load_upsert None (Sample.payload_of "a.xlsx") same_rows).2.
Definition after_b : World :=
  (load_upsert None (Sample.payload_of "b.xlsx") after_a).2.

(** An artifact whose workbook is gone. *)
Definition orphan : World :=
  MkWorld {["orphan.csv" := Sample.january]} ∅ ∅ ∅.
Definition orphan_committed : World :=
  (db_work None (Sample.incoming "orphan.csv") orphan).2.
End More.

(** * Properties *)

(** ** Discovery *)

Lemma fnmatch_star_unfold pat s :
  fnmatch (String "*" pat) s =
  fnmatch pat s || match s with
                   | EmptyString => false
                   | String _ s' => fnmatch (String "*" pat) s'
                   end.
Proof. by destruct s. Qed.

Lemma fnmatch_star_literal lit s :
  (∀ s', fnmatch lit s' = true ↔ s' = lit) →
  fnmatch (String "*" lit) s = true ↔ ∃ k, s = k +:+ lit.
Proof.
  intros Hlit. split.
  - induction s as [|c s IH]; rewrite fnmatch_star_unfold, orb_true_iff.
    + intros [Hm|?]; [|done]. exists "". by apply Hlit in Hm.
    + intros [Hm|Hm].
      * exists "". by apply Hlit in Hm.
      * destruct (IH Hm) as [k ->]. by exists (String c k).
  - intros [k ->]. induction k as [|c k IH].
    + rewrite fnmatch_star_unfold, orb_true_iff. left. by apply Hlit.
    + change (String c k +:+ lit) with (String c (k +:+ lit)).
      rewrite fnmatch_star_unfold, orb_true_iff. by right.
Qed.

(** A pattern without wildcards matches itself and nothing else. *)
Ltac literal_match :=
  intros ?; split;
  [ cbn [fnmatch];
    repeat match goal with
           | |- match ?s with _ => _ end = true → _ => is_var s; destruct s
           | |- false = true → _ => discriminate
           | |- true = true → _ => done
           | |- _ && _ = true → _ =>
               intros [->%Ascii.eqb_eq ?]%andb_true_iff; f_equal;
               revert select (_ = true)
           end
  | by intros -> ].

Lemma fnmatch_lower s : fnmatch "*.xlsx" s = true ↔ ∃ k, s = k +:+ ".xlsx".
Proof. apply fnmatch_star_literal. literal_match. Qed.

Lemma fnmatch_upper s : fnmatch "*.XLSX" s = true ↔ ∃ k, s = k +:+ ".XLSX".
Proof. apply fnmatch_star_literal. literal_match. Qed.

Global Instance path_le_trans : Transitive path_le.
Proof. intros p q r. unfold path_le. apply transitivity. Qed.

Global Instance path_le_total : Total path_le.
Proof. intros p q. unfold path_le. apply total, _. Qed.

Lemma StronglySorted_filter {A} (R : relation A) (P : A → Prop)
    `{∀ x, Decision (P x)} l :
  StronglySorted R l → StronglySorted R (filter P l).
Proof.
  induction 1 as [|x l Hl IH Hx]; [constructor|].
  rewrite filter_cons. case_decide; [|done].
  constructor; [done|]. apply Forall_forall.
  intros y [_ Hy]%list_elem_of_filter. by eapply Forall_forall in Hx.
Qed.

Lemma elem_of_glob d pattern w p :
  p ∈ glob d pattern w ↔
  parent p = d ∧ is_Some (listing d w !! name p) ∧ fnmatch pattern (name p) = true.
Proof.
  unfold glob. rewrite list_elem_of_fmap. split.
  - intros (n & -> & [Hm Hn%elem_of_elements%elem_of_dom]%list_elem_of_filter).
    done.
  - intros (<- & Hn & Hm). exists (name p). split; [by destruct p|].
    apply list_elem_of_filter. split; [done|].
    by apply elem_of_elements, elem_of_dom.
Qed.

(** The list that [list_excel_files] builds before it looks whether it is
    empty. *)
Lemma list_excel_files_found w :
  ∃ files,
    list_excel_files w =
      (match files with [] => Raise NoExcelFiles | _ => Ok files end, w) ∧
    StronglySorted path_le files ∧ NoDup files ∧
    ∀ p, p ∈ files ↔
         parent p = INCOMING_DIR ∧ is_Some (incoming_dir w !! name p) ∧
         excel_name (name p) ∧ startswith "~$" (name p) = false.
Proof.
  unfold list_excel_files. cbn [map concat]. rewrite app_nil_r.
  set (found := glob _ _ w ++ glob _ _ w).
  exists (filter (λ f, startswith "~$" (name f) = false)
            (merge_sort path_le (remove_dups found))).
  split_and!.
  - by destruct (filter _ _).
  - apply StronglySorted_filter, StronglySorted_merge_sort; apply _.
  - apply NoDup_filter. rewrite merge_sort_Permutation. apply NoDup_remove_dups.
  - intros p. rewrite list_elem_of_filter, merge_sort_Permutation,
      elem_of_remove_dups. unfold found, excel_name.
    rewrite elem_of_app, !elem_of_glob, fnmatch_lower, fnmatch_upper.
    cbn [listing]. tauto.
Qed.

(** C6: in every state of the incoming directory, [list_excel_files] builds
    the list of the directory's entries that match one of its two patterns
    and do not start with the lock-file marker; the list is sorted by name
    and has no duplicates; the task raises exactly when this list is empty,
    and returns it otherwise, leaving the world as it was. *)
Theorem list_excel_files_sorted_deduplicated w :
  ∃ files,
    StronglySorted path_le files ∧ NoDup files ∧
    (∀ p, p ∈ files ↔
          parent p = INCOMING_DIR ∧ is_Some (incoming_dir w !! name p) ∧
          excel_name (name p) ∧ startswith "~$" (name p) = false) ∧
    (files = [] → list_excel_files w = (Raise NoExcelFiles, w)) ∧
    (files ≠ [] → list_excel_files w = (Ok files, w)).
Proof.
  destruct (list_excel_files_found w) as (files & Hrun & Hsorted & Hnodup & Hin).
  exists files. split_and!; [done..| |].
  - by intros ->.
  - intros Hne. by destruct files.
Qed.

(** C7, as amended: matching is case-sensitive and knows two spellings of
    the extension.  A file of the incoming directory whose name does not
    start with the lock-file marker is in the output of [list_excel_files]
    exactly when its name ends in [.xlsx] or in [.XLSX]. *)
Theorem discovery_matches_two_spellings w n :
  is_Some (incoming_dir w !! n) →
  startswith "~$" n = false →
  (∃ files, list_excel_files w = (Ok files, w) ∧ Path INCOMING_DIR n ∈ files) ↔
  excel_name n.
Proof.
  intros Hfile Hlock.
  destruct (list_excel_files_found w) as (files & Hrun & _ & _ & Hin).
  rewrite Hrun. split.
  - intros (files' & Heq & Hn). destruct files as [|p files]; [done|].
    injection Heq as <-. by apply Hin in Hn as (_ & _ & ? & _).
  - intros Hname.
    assert (Path INCOMING_DIR n ∈ files) as Hn by (by apply Hin).
    exists files. split; [|done]. destruct files; [|done].
    by apply elem_of_nil in Hn.
Qed.

(** ** The result monad on lists *)

Lemma mapM_cons {A B} (f : A → result B) a l :
  mapM f (a :: l) =
  match f a with
  | Ok b => match mapM f l with Ok k => Ok (b :: k) | Raise e => Raise e end
  | Raise e => Raise e
  end.
Proof. done. Qed.

Lemma mapM_Ok_Forall2 {A B} (f : A → result B) l k :
  mapM f l = Ok k ↔ Forall2 (λ a b, f a = Ok b) l k.
Proof.
  split.
  - revert k. induction l as [|a l IH]; intros k.
    + intros [= <-]. constructor.
    + rewrite mapM_cons. destruct (f a) eqn:?; [|done].
      destruct (mapM f l); [|done]. intros [= <-]. constructor; auto.
  - induction 1 as [|a b l k Hab _ IH]; [done|].
    by rewrite mapM_cons, Hab, IH.
Qed.

Lemma mapM_Raise_exists {A B} (f : A → result B) l e :
  mapM f l = Raise e → ∃ a, a ∈ l ∧ f a = Raise e.
Proof.
  induction l as [|a l IH]; [done|]. rewrite mapM_cons.
  destruct (f a) eqn:Ha.
  - destruct (mapM f l); [done|]. intros [= ->].
    destruct IH as (a' & ? & ?); [done|]. exists a'. split; [by right|done].
  - intros [= ->]. exists a. split; [by left|done].
Qed.

(** ** Frames *)

Lemma check_columns_Ok df :
  check_columns df = Ok tt ↔ Forall (λ c, c ∈ columns df) (REQ_COLUMNS.*1).
Proof.
  unfold check_columns.
  destruct (filter _ _) eqn:Hf.
  - split; [intros _|done]. apply Forall_forall. intros c Hc.
    destruct (decide (c ∈ columns df)); [done|].
    by destruct (filter_nil_not_elem_of _ _ c Hf).
  - split; [done|]. intros Hall. exfalso.
    assert (s ∈ filter (λ c, c ∉ columns df) (REQ_COLUMNS.*1)) as
      [Hs Hin]%list_elem_of_filter by (rewrite Hf; left).
    eapply Forall_forall in Hall; done.
Qed.

Lemma cell_insert_eq c v (r : gmap string value) : cell c (<[c := v]> r) = v.
Proof. unfold cell. by rewrite lookup_insert_eq. Qed.

Lemma cell_insert_ne c c' v (r : gmap string value) :
  c' ≠ c → cell c (<[c' := v]> r) = cell c r.
Proof. intros. unfold cell. by rewrite lookup_insert_ne. Qed.

Ltac cells :=
  repeat (rewrite cell_insert_eq || rewrite cell_insert_ne by done).

Ltac labels :=
  repeat match goal with
         | |- context [rename_label REQ_COLUMNS ?c] =>
             let v := eval vm_compute in (rename_label REQ_COLUMNS c) in
             change (rename_label REQ_COLUMNS c) with v
         end.

Lemma subset_rename_Ok df :
  check_columns df = Ok tt →
  subset_rename df = Ok (Frame FINAL_COLUMNS (renamed_row <$> rows df)).
Proof.
  unfold check_columns, subset_rename, select.
  destruct (filter _ _); [intros _|done]. cbn [mbind result_bind].
  unfold rename. cbn [columns rows]. f_equal. f_equal.
  rewrite <-list_fmap_compose. apply list_fmap_ext. intros _ r _.
  cbn -[cell]. unfold renamed_row. labels. by cells.
Qed.

Lemma getitem_Ok c df : c ∈ columns df → getitem c df = Ok (cell c <$> rows df).
Proof. intros. unfold getitem. by rewrite decide_True. Qed.

Section transform_facts.
Context `{Scalars}.

Lemma cast_column_Ok col ids :
  to_numeric_raise col ≫= astype_int64 = Ok ids ↔
  Forall2 (λ v i, cast_id v = Ok i) col ids.
Proof.
  unfold to_numeric_raise, astype_int64, cast_id. split.
  - destruct (mapM numeric_or_raise col) as [mid|] eqn:Hmid; [|done].
    cbn [mbind result_bind]. intros Hids.
    apply mapM_Ok_Forall2 in Hmid, Hids.
    revert ids Hids. induction Hmid as [|v m col mid Hv _ IH]; intros ids; inv 1.
    + constructor.
    + constructor; [|by apply IH]. by rewrite Hv.
  - induction 1 as [|v i col ids Hv _ IH]; [done|].
    rewrite mapM_cons. destruct (numeric_or_raise v) as [m|] eqn:Hm; [|done].
    destruct (mapM numeric_or_raise col) as [mid|]; [|done].
    cbn [mbind result_bind] in *. rewrite mapM_cons, Hv.
    by destruct (mapM int64_of mid); simplify_eq.
Qed.

Lemma setitem_Frame c col cs rs :
  c ∈ cs →
  setitem c col (Frame cs rs) = Frame cs (zip_with (λ r v, <[c := v]> r) rs col).
Proof. intros. unfold setitem. cbn. by rewrite decide_True. Qed.

Lemma getitem_Frame c cs rs : c ∈ cs → getitem c (Frame cs rs) = Ok (cell c <$> rs).
Proof. intros. by rewrite getitem_Ok. Qed.

Lemma zip_with_update c (g : gmap string value → value) (rs : list (gmap string value)) :
  zip_with (λ r v, <[c := v]> r) rs (g <$> rs) = (λ r, <[c := g r]> r) <$> rs.
Proof. by rewrite zip_with_fmap_r, zip_with_diag. Qed.

Lemma cast_and_clean_renamed rs :
  cast_and_clean (Frame FINAL_COLUMNS (renamed_row <$> rs)) =
  ids ← (to_numeric_raise (cell "id" <$> rs) ≫= astype_int64);
  Ok (Frame FINAL_COLUMNS (zip_with normalized_row ids rs)).
Proof.
  assert (∀ c, c ∈ FINAL_COLUMNS ↔
               c = "id" ∨ c = "salescode" ∨ c = "dateorder" ∨
               c = "totalsales" ∨ c = "brand") as Hfinal.
  { intros c. cbn. rewrite !elem_of_cons, elem_of_nil. tauto. }
  unfold cast_and_clean.
  rewrite getitem_Frame by (apply Hfinal; tauto). cbn [mbind result_bind].
  replace (cell "id" <$> (renamed_row <$> rs)) with (cell "id" <$> rs).
  2:{ rewrite <-list_fmap_compose. apply list_fmap_ext. intros _ r _.
      cbn -[cell]. unfold renamed_row. cbn -[cell]. by cells. }
  destruct (to_numeric_raise _) as [mid|]; [|done]. cbn [mbind result_bind].
  destruct (astype_int64 mid) as [ids|]; [|done]. cbn [mbind result_bind].
  rewrite !setitem_Frame by (apply Hfinal; tauto).
  unfold str_strip, astype_str, to_datetime_coerce_date, fillna, to_numeric_coerce.
  set (rows1 := zip_with _ _ ids).
  rewrite getitem_Frame by (apply Hfinal; tauto). cbn [mbind result_bind].
  rewrite <-!list_fmap_compose, setitem_Frame, zip_with_update
    by (apply Hfinal; tauto).
  set (rows2 := _ <$> rows1).
  rewrite getitem_Frame by (apply Hfinal; tauto). cbn [mbind result_bind].
  rewrite <-!list_fmap_compose, setitem_Frame, zip_with_update
    by (apply Hfinal; tauto).
  set (rows3 := _ <$> rows2).
  rewrite getitem_Frame by (apply Hfinal; tauto). cbn [mbind result_bind].
  rewrite <-!list_fmap_compose, setitem_Frame, zip_with_update
    by (apply Hfinal; tauto).
  set (rows4 := _ <$> rows3).
  cbn [columns]. rewrite decide_True by (apply Hfinal; tauto).
  rewrite getitem_Frame by (apply Hfinal; tauto). cbn [mbind result_bind].
  rewrite <-!list_fmap_compose, setitem_Frame, zip_with_update
    by (apply Hfinal; tauto).
  do 2 f_equal. subst rows4 rows3 rows2 rows1.
  rewrite <-!list_fmap_compose.
  clear mid. revert ids. induction rs as [|r rs IH]; intros [|i ids]; [done..|].
  cbn -[cell normalized_row]. rewrite <-IH. by f_equal.
Qed.

Lemma normalize_unfold df :
  has_required_columns df →
  normalize df =
  ids ← (to_numeric_raise (cell "id" <$> rows df) ≫= astype_int64);
  Ok (Frame FINAL_COLUMNS (zip_with normalized_row ids (rows df))).
Proof.
  intros Hc%check_columns_Ok. unfold normalize.
  rewrite Hc, (subset_rename_Ok _ Hc). cbn [mbind result_bind].
  apply cast_and_clean_renamed.
Qed.

Lemma normalize_Ok df nf :
  normalize df = Ok nf ↔
  has_required_columns df ∧
  ∃ ids, Forall2 (λ r i, cast_id (cell "id" r) = Ok i) (rows df) ids ∧
         nf = Frame FINAL_COLUMNS (zip_with normalized_row ids (rows df)).
Proof.
  split.
  - intros Hn. assert (has_required_columns df) as Hc.
    { apply check_columns_Ok. unfold normalize in Hn.
      by destruct (check_columns df) as [[]|]. }
    split; [done|]. rewrite normalize_unfold in Hn by done.
    destruct (_ ≫= astype_int64) as [ids|] eqn:Hids; [|done].
    injection Hn as <-. exists ids. split; [|done].
    apply cast_column_Ok in Hids. by apply Forall2_fmap_l in Hids.
  - intros (Hc & ids & Hids & ->). rewrite normalize_unfold by done.
    assert (to_numeric_raise (cell "id" <$> rows df) ≫= astype_int64 = Ok ids)
      as -> by (by apply cast_column_Ok, Forall2_fmap_l).
    done.
Qed.

(** Row by row: the record at position [i] of the normalized frame comes
    from the input row at position [i]. *)
Lemma normalize_lookup df nf i r :
  normalize df = Ok nf → rows df !! i = Some r →
  ∃ z, cast_id (cell "id" r) = Ok z ∧ rows nf !! i = Some (normalized_row z r).
Proof.
  intros (_ & ids & Hids & ->)%normalize_Ok Hr.
  destruct (Forall2_lookup_l _ _ _ _ _ Hids Hr) as (z & Hz & Hcast).
  exists z. split; [done|]. cbn [rows].
  by rewrite lookup_zip_with, Hz, Hr.
Qed.

Lemma normalize_is_Ok df :
  has_required_columns df →
  Forall (λ r, ∃ z, cast_id (cell "id" r) = Ok z) (rows df) →
  ∃ nf, normalize df = Ok nf.
Proof.
  intros Hc Hids. rewrite normalize_unfold by done.
  destruct (_ ≫= astype_int64) as [ids|e] eqn:He; [by eexists|].
  exfalso. unfold to_numeric_raise, astype_int64 in He.
  destruct (mapM numeric_or_raise _) as [mid|] eqn:Hmid.
  - cbn [mbind result_bind] in He.
    apply mapM_Raise_exists in He as (m & Hm & Hraise).
    apply mapM_Ok_Forall2 in Hmid.
    apply list_elem_of_lookup_1 in Hm as [i Hi].
    destruct (Forall2_lookup_r _ _ _ _ _ Hmid Hi) as (v & Hv & Hnum).
    apply list_lookup_fmap_Some in Hv as (r & -> & Hr).
    eapply Forall_lookup_1 in Hids as [z Hz]; [|done].
    unfold cast_id in Hz. rewrite Hnum in Hz. cbn in Hz. congruence.
  - injection He as ->.
    apply mapM_Raise_exists in Hmid as (v & Hv & Hraise).
    apply list_elem_of_fmap in Hv as (r & -> & Hr).
    eapply Forall_forall in Hids as [z Hz]; [|done].
    unfold cast_id in Hz. by rewrite Hraise in Hz.
Qed.

Lemma normalize_Raise_row df r e :
  has_required_columns df → r ∈ rows df → cast_id (cell "id" r) = Raise e →
  ∃ e', normalize df = Raise e'.
Proof.
  intros Hc Hr He. destruct (normalize df) as [nf|e'] eqn:Hn; [|by eexists].
  apply list_elem_of_lookup_1 in Hr as [i Hi].
  destruct (normalize_lookup _ _ _ _ Hn Hi) as (z & Hz & _). congruence.
Qed.

Lemma drop_invalid_final rs :
  drop_invalid (Frame FINAL_COLUMNS rs) =
  Ok (Frame FINAL_COLUMNS
        (filter (λ r, Forall (λ c, isna (cell c r) = false) ["id"; "dateorder"]) rs)).
Proof. done. Qed.
End transform_facts.

Section transform_properties.
Context `{Scalars}.

Lemma cell_normalized_row z r :
  cell "id" (normalized_row z r) = z ∧
  cell "salescode" (normalized_row z r) = stripped (str_of (cell "name_sales_code" r)) ∧
  cell "dateorder" (normalized_row z r) = date_or_nat (cell "date_order" r) ∧
  cell "totalsales" (normalized_row z r) =
    fill (Num 0) (numeric_or_nan (cell "amount_total" r)) ∧
  cell "brand" (normalized_row z r) = stripped (str_of (cell "brand" r)).
Proof. unfold normalized_row. split_and!; by cells. Qed.

Lemma cast_id_isna v : isna v = true → cast_id v = Raise IntCastingNaNError.
Proof. by destruct v. Qed.

Lemma cast_id_Ok v z : cast_id v = Ok z → ∃ n, z = Int64 n.
Proof.
  unfold cast_id, numeric_or_raise.
  destruct (to_numeric_scalar v); cbn; intros [= <-]; by eexists.
Qed.

(** C10: the two text columns are cast to text first and trimmed second,
    and nothing looks for missing values.  The normalized record of every
    input row holds, under [salescode] and [brand], the trimmed [str] of
    the source cell; when that cell is missing (NaN) the record holds the
    text [nan], not a null. *)
Theorem missing_text_is_stored_as_nan df nf i r :
  normalize df = Ok nf → rows df !! i = Some r →
  ∃ r', rows nf !! i = Some r' ∧
    cell "salescode" r' = stripped (str_of (cell "name_sales_code" r)) ∧
    cell "brand" r' = stripped (str_of (cell "brand" r)) ∧
    (cell "name_sales_code" r = NaN → r' !! "salescode" = Some (Str "nan")) ∧
    (cell "brand" r = NaN → r' !! "brand" = Some (Str "nan")).
Proof.
  intros Hn Hr. destruct (normalize_lookup _ _ _ _ Hn Hr) as (z & _ & Hi).
  exists (normalized_row z r). split; [done|].
  destruct (cell_normalized_row z r) as (_ & Hs & _ & _ & Hb).
  split_and!; [done..| |].
  - intros Hnan. unfold normalized_row. rewrite lookup_insert_ne by done.
    rewrite lookup_insert_ne by done. rewrite lookup_insert_ne by done.
    rewrite lookup_insert_eq. by rewrite Hnan.
  - intros Hnan. unfold normalized_row. rewrite lookup_insert_eq.
    by rewrite Hnan.
Qed.

(** C8, as amended: on a sheet that has the required columns and whose
    ids cast, the casts succeed whatever the [amount_total] cells hold, and
    the normalized record of every input row has a number for
    [totalsales]: the number read from [amount_total], of either sign, and
    0 when the cell is blank or does not read as a number. *)
Theorem totalsales_is_parsed_or_zero df :
  has_required_columns df →
  Forall (λ r, ∃ z, cast_id (cell "id" r) = Ok z) (rows df) →
  ∃ nf, normalize df = Ok nf ∧
    ∀ i r, rows df !! i = Some r →
      ∃ r', rows nf !! i = Some r' ∧
        cell "totalsales" r' =
          match to_numeric_scalar (cell "amount_total" r) with
          | Parsed q => Num q
          | _ => Num 0
          end.
Proof.
  intros Hc Hids. destruct (normalize_is_Ok df Hc Hids) as [nf Hn].
  exists nf. split; [done|]. intros i r Hr.
  destruct (normalize_lookup _ _ _ _ Hn Hr) as (z & _ & Hi).
  exists (normalized_row z r). split; [done|].
  destruct (cell_normalized_row z r) as (_ & _ & _ & -> & _).
  unfold fill, numeric_or_nan. by destruct (to_numeric_scalar _).
Qed.

(** C3, on the code: the cast of the id column to int64 raises on a
    missing id, so a sheet that passes the column check and has one row
    with a missing id fails as a whole; the [dropna] that would drop the
    row is never reached. *)
Theorem blank_id_fails_the_file df r :
  has_required_columns df → r ∈ rows df → isna (cell "id" r) = true →
  ∃ e, transform_frame df = Raise e.
Proof.
  intros Hc Hr Hna.
  destruct (normalize_Raise_row df r _ Hc Hr (cast_id_isna _ Hna)) as [e He].
  exists e. unfold transform_frame. by rewrite He.
Qed.

Lemma text_id_fails_the_file df r s :
  has_required_columns df → r ∈ rows df → cell "id" r = Str s →
  parse_numeric s = None →
  ∃ e, transform_frame df = Raise e.
Proof.
  intros Hc Hr Hs Hparse.
  assert (cast_id (cell "id" r) = Raise (UnableToParse (Str s))) as Hcast.
  { rewrite Hs. unfold cast_id, numeric_or_raise. cbn. by rewrite Hparse. }
  destruct (normalize_Raise_row df r _ Hc Hr Hcast) as [e He].
  exists e. unfold transform_frame. by rewrite He.
Qed.

Lemma transform_frame_Ok df out :
  transform_frame df = Ok out ↔
  ∃ nf, normalize df = Ok nf ∧
    out = Frame FINAL_COLUMNS
            (filter (λ r, Forall (λ c, isna (cell c r) = false) ["id"; "dateorder"])
                    (rows nf)).
Proof.
  unfold transform_frame. split.
  - destruct (normalize df) as [nf|] eqn:Hn; [|done]. cbn [mbind result_bind].
    pose proof Hn as (_ & ids & _ & ->)%normalize_Ok.
    rewrite drop_invalid_final. intros [= <-]. by eexists.
  - intros (nf & Hn & ->). rewrite Hn. cbn [mbind result_bind].
    apply normalize_Ok in Hn as (_ & ids & _ & ->). apply drop_invalid_final.
Qed.

Lemma transform_output_has_no_null df out r :
  transform_frame df = Ok out → r ∈ rows out →
  isna (cell "id" r) = false ∧ isna (cell "dateorder" r) = false.
Proof.
  intros (nf & _ & ->)%transform_frame_Ok [Hk _]%list_elem_of_filter.
  rewrite !Forall_cons in Hk. tauto.
Qed.

Lemma unparseable_date_drops_the_row df out i r nf r' :
  transform_frame df = Ok out → normalize df = Ok nf →
  rows df !! i = Some r → rows nf !! i = Some r' →
  (r' ∈ rows out ↔ ∃ d, to_datetime_scalar (cell "date_order" r) = Parsed d).
Proof.
  intros (nf' & Hn' & ->)%transform_frame_Ok Hn Hr Hr'.
  assert (nf' = nf) as -> by congruence.
  destruct (normalize_lookup _ _ _ _ Hn Hr) as (z & Hz & Hi).
  assert (r' = normalized_row z r) as -> by congruence.
  destruct (cell_normalized_row z r) as (Hid & _ & Hd & _).
  cbn [rows]. rewrite list_elem_of_filter, !Forall_cons, Hid, Hd.
  apply cast_id_Ok in Hz as [n ->]. unfold date_or_nat.
  split.
  - intros [(_ & Hna & _) _]. destruct (to_datetime_scalar _); [by eexists|done..].
  - intros [d ->]. split_and!; [done..|]. by eapply list_elem_of_lookup_2.
Qed.
End transform_properties.

(** ** validate_and_transform on the world *)

Section validate_facts.
Context `{Scalars}.

Lemma transform_body_Raise p w e w' :
  transform_body p w = (Raise e, w') → w' = w.
Proof.
  unfold transform_body, mbind, task_bind, read_excel, lift, to_csv, mret, task_ret.
  destruct (read_file p w) as [[df| |]|]; try by intros [= _ <-].
  destruct (transform_frame df); by intros [= <-].
Qed.

Lemma transform_body_Ok p w pl w' :
  transform_body p w = (Ok pl, w') ↔
  ∃ df out, read_file p w = Some (Workbook df) ∧ transform_frame df = Ok out ∧
    pl = Payload p (with_suffix p ".csv") ∧
    w' = write_file (with_suffix p ".csv")
           (CsvFile (columns out) ((λ r, (λ c, cell c r) <$> columns out) <$> rows out)) w.
Proof.
  unfold transform_body, mbind, task_bind, read_excel, lift, to_csv, mret, task_ret.
  split.
  - destruct (read_file p w) as [[df| |]|]; try done.
    destruct (transform_frame df) as [out|] eqn:Hout; [|done].
    intros [= <- <-]. by exists df, out.
  - intros (df & out & -> & -> & -> & ->). done.
Qed.

Lemma validate_and_transform_Ok p w pl w' :
  validate_and_transform p w = (Ok pl, w') ↔ transform_body p w = (Ok pl, w').
Proof.
  unfold validate_and_transform, try_except, mbind, task_bind, raise.
  destruct (transform_body p w) as [[?|?] ?]; [done|].
  split; [|done]. by destruct (shutil_move _ _ _) as [[[]|?] ?].
Qed.

(** C5: whenever [validate_and_transform] raises on a file of the
    incoming directory, what it raises is [TransformFailed] with, as its
    cause, the exception of the [try] block, which left the world as it
    found it.  The file has moved to the error directory, replacing what
    was there under its name; when there was no file to move, the failed
    move is swallowed and nothing changes.  The archive, the table and the
    other incoming entries are as before. *)
Theorem transform_failure_moves_file_to_error n w e w' :
  validate_and_transform (Path INCOMING_DIR n) w = (Raise e, w') →
  ∃ cause,
    e = TransformFailed n cause ∧
    transform_body (Path INCOMING_DIR n) w = (Raise cause, w) ∧
    archive_dir w' = archive_dir w ∧
    sales_daily w' = sales_daily w ∧
    match incoming_dir w !! n with
    | Some f =>
        incoming_dir w' = delete n (incoming_dir w) ∧
        error_dir w' = <[n := f]> (error_dir w)
    | None =>
        incoming_dir w' = incoming_dir w ∧ error_dir w' = error_dir w
    end.
Proof.
  unfold validate_and_transform, try_except, mbind, task_bind, raise, mret, task_ret.
  destruct (transform_body _ w) as [[pl|cause] w0] eqn:Hbody; [done|].
  apply transform_body_Raise in Hbody as Hw0. subst w0.
  unfold shutil_move, read_file. cbn [parent name listing].
  destruct (incoming_dir w !! n) as [f|]; intros [= <- <-];
    exists cause; by split_and!.
Qed.

(** C2, on the code: [brand] is one of the keys of [REQ_COLUMNS], so the
    header check counts it as missing.  A workbook that has the other four
    columns and no [brand] is rejected with [MissingColumns ["brand"]] and
    moved to the error directory. *)
Theorem sheet_without_brand_is_rejected n w df :
  incoming_dir w !! n = Some (Workbook df) →
  Forall (λ c, c ∈ columns df)
         ["id"; "name_sales_code"; "date_order"; "amount_total"] →
  "brand" ∉ columns df →
  validate_and_transform (Path INCOMING_DIR n) w =
    (Raise (TransformFailed n (MissingColumns ["brand"] (columns df))),
     MkWorld (delete n (incoming_dir w)) (archive_dir w)
             (<[n := Workbook df]> (error_dir w)) (sales_daily w)).
Proof.
  intros Hf Hcols Hbrand. rewrite !Forall_cons in Hcols.
  destruct Hcols as (? & ? & ? & ? & _).
  assert (check_columns df = Raise (MissingColumns ["brand"] (columns df))) as Hc.
  { unfold check_columns. cbn [REQ_COLUMNS fmap list_fmap fst].
    rewrite !filter_cons, filter_nil.
    rewrite !decide_False by (by intros []).
    by rewrite decide_True. }
  unfold validate_and_transform, try_except, transform_body, mbind, task_bind,
    read_excel, lift, raise, mret, task_ret, shutil_move, read_file.
  cbn [parent name listing]. rewrite Hf.
  unfold transform_frame, normalize. rewrite Hc. cbn [mbind result_bind].
  by rewrite Hf.
Qed.
End validate_facts.

(** ** Files *)

Lemma sales_daily_write_file p f w : sales_daily (write_file p f w) = sales_daily w.
Proof. by destruct p as [[] ?]. Qed.

Lemma sales_daily_remove_file p w : sales_daily (remove_file p w) = sales_daily w.
Proof. by destruct p as [[] ?]. Qed.

(** ** load_upsert *)

Lemma upsert_untouched staging touched table table' k :
  upsert staging touched table = Ok table' → k ∈ touched →
  table' !! k = table !! k.
Proof.
  revert touched table. induction staging as [|r staging IH]; intros touched table.
  - by intros [= <-].
  - cbn [upsert]. destruct (id r) as [k'|]; [|done]. case_decide; [done|].
    intros Hup Hk. rewrite (IH _ _ Hup) by set_solver.
    apply lookup_insert_ne. set_solver.
Qed.

Lemma upsert_lookup staging touched table table' k c :
  upsert staging touched table = Ok table' →
  StagingRow (Some k) c ∈ staging →
  table' !! k = Some c.
Proof.
  revert touched table. induction staging as [|r staging IH]; intros touched table.
  - intros _ []%elem_of_nil.
  - cbn [upsert]. destruct (id r) as [k'|] eqn:Hid; [|done]. case_decide; [done|].
    intros Hup [<-|Hin]%elem_of_cons; [|by eapply IH].
    cbn in Hid. injection Hid as <-. cbn [cols] in Hup.
    rewrite (upsert_untouched _ _ _ _ k Hup) by set_solver.
    apply lookup_insert_eq.
Qed.

Lemma upsert_other staging touched table table' k :
  upsert staging touched table = Ok table' →
  (∀ c, StagingRow (Some k) c ∉ staging) →
  table' !! k = table !! k.
Proof.
  revert touched table. induction staging as [|r staging IH]; intros touched table.
  - by intros [= <-].
  - cbn [upsert]. destruct (id r) as [k'|] eqn:Hid; [|done]. case_decide; [done|].
    intros Hup Hk. rewrite (IH _ _ Hup).
    + apply lookup_insert_ne. intros ->. apply (Hk (cols r)).
      destruct r. cbn in *. subst. left.
    + intros c Hc. apply (Hk c). by right.
Qed.

Lemma upsert_NoDup_Ok staging touched table :
  Forall (λ r, ∃ k, id r = Some k ∧ k ∉ touched) staging →
  NoDup (id <$> staging) →
  ∃ table', upsert staging touched table = Ok table'.
Proof.
  revert touched table. induction staging as [|r staging IH]; intros touched table.
  - by eexists.
  - rewrite Forall_cons, fmap_cons, NoDup_cons.
    intros [(k & Hk & Hfresh) Hall] [Hnotin Hnd]. cbn [upsert]. rewrite Hk.
    rewrite decide_False by done. apply IH; [|done].
    apply Forall_forall. intros r' Hr'.
    eapply Forall_forall in Hall as (k' & Hk' & ?); [|done].
    exists k'. split; [done|]. rewrite Hk in Hnotin.
    assert (k' ≠ k); [|set_solver].
    intros ->. apply Hnotin. rewrite <-Hk'. by apply list_elem_of_fmap_2.
Qed.

Lemma db_step_ok_None s : db_step_ok None s = Ok tt.
Proof. done. Qed.

Lemma db_step_ok_Ok fault s u : db_step_ok fault s = Ok u → fault ≠ Some s.
Proof. unfold db_step_ok. by case_decide. Qed.

(** What [db_work] does when it returns. *)
Lemma db_work_Ok fault t w w' :
  db_work fault t w = (Ok tt, w') ↔
  ∃ header records staging table,
    fault = None ∧
    read_file t w = Some (CsvFile header records) ∧
    mapM copy_record records = Ok staging ∧
    upsert staging ∅ (sales_daily w) = Ok table ∧
    w' = MkWorld (incoming_dir w) (archive_dir w) (error_dir w) table.
Proof.
  unfold db_work, mbind, task_bind, lift, copy_expert, commit. split.
  - destruct (db_step_ok fault Connect) eqn:H1; [|done].
    destruct (db_step_ok fault CreateStaging) eqn:H2; [|done].
    destruct (read_file t w) as [f|]; [|done].
    destruct (db_step_ok fault Copy) eqn:H3; [|done].
    cbn [mbind result_bind].
    destruct f as [|header records|]; try done.
    destruct (mapM copy_record records) as [staging|] eqn:Hs; [|done].
    destruct (db_step_ok fault Merge) eqn:H4; [|done].
    cbn [result_bind].
    destruct (upsert staging ∅ _) as [table|] eqn:Hu; [|done].
    destruct (db_step_ok fault Commit) eqn:H5; [|done].
    intros [= <-]. exists header, records, staging, table. split_and!; try done.
    apply db_step_ok_Ok in H1, H2, H3, H4, H5. by destruct fault as [[]|].
  - intros (header & records & staging & table & -> & -> & Hs & Hu & ->).
    rewrite !db_step_ok_None. cbn [mbind result_bind]. rewrite Hs.
    cbn [result_bind]. by rewrite Hu.
Qed.

Lemma db_work_Raise fault t w e w' :
  db_work fault t w = (Raise e, w') → w' = w.
Proof.
  unfold db_work, mbind, task_bind, lift, copy_expert, commit.
  repeat case_match; intros ?; by simplify_eq.
Qed.

(** C1: whatever the table held, when [load_upsert] returns, the row of
    [sales_daily] under every id of the loaded artifact has exactly the four
    non-key values of the artifact's record.  The world [w] is arbitrary, so
    it may be the one a previous load of the same id left behind: the second
    load wins. *)
Theorem load_upsert_overwrites_row fault p w w' header records staging k c :
  load_upsert fault p w = (Ok tt, w') →
  read_file (tmp_csv p) w = Some (CsvFile header records) →
  mapM copy_record records = Ok staging →
  StagingRow (Some k) c ∈ staging →
  sales_daily w' !! k = Some c.
Proof.
  unfold load_upsert, mbind, task_bind at 1 2, unlink_missing_ok, shutil_move.
  destruct (db_work fault (tmp_csv p) w) as [[[]|] w1] eqn:Hdb; [|done].
  apply db_work_Ok in Hdb as (h & rs & st & table & _ & Hread & Hst & Hup & ->).
  destruct (read_file (filepath p) _) as [f|]; [|done].
  intros [= <-] Hread' Hst' Hin.
  assert (st = staging) as -> by congruence.
  rewrite sales_daily_write_file, !sales_daily_remove_file. cbn [sales_daily].
  by eapply upsert_lookup.
Qed.

(** C4: when the database work of [load_upsert] fails, be it the driver at
    the copy or at the merge, or any exception raised between connecting and
    closing, the task raises and the world is exactly as before: the input
    file is still in the incoming directory, nothing was added to the archive
    or to the error directory, and the artifact is still there. *)
Theorem load_failure_leaves_files_in_place fault p w :
  fault = Some Copy ∨ fault = Some Merge ∨
    (∃ e w1, db_work fault (tmp_csv p) w = (Raise e, w1)) →
  ∃ e, load_upsert fault p w = (Raise e, w).
Proof.
  intros Hfail.
  assert (∃ e w1, db_work fault (tmp_csv p) w = (Raise e, w1)) as (e & w1 & Hdb).
  { destruct Hfail as [->| [->|?]]; [| |done].
    - destruct (db_work (Some Copy) (tmp_csv p) w) as [[[]|e] w1] eqn:Hdb;
        [|by eauto].
      by apply db_work_Ok in Hdb as (? & ? & ? & ? & ? & _).
    - destruct (db_work (Some Merge) (tmp_csv p) w) as [[[]|e] w1] eqn:Hdb;
        [|by eauto].
      by apply db_work_Ok in Hdb as (? & ? & ? & ? & ? & _). }
  exists e. apply db_work_Raise in Hdb as Hw. subst w1.
  unfold load_upsert, mbind, task_bind at 1. by rewrite Hdb.
Qed.

(** C9: when [load_upsert] returns on the payload that
    [validate_and_transform] makes for a file of the incoming directory, the
    file was there, and it is now in the archive under its name and gone
    from the incoming directory, as is the artifact; the error directory is
    untouched. *)
Theorem load_success_archives_file fault n w w' :
  let p := Path INCOMING_DIR n in
  let csv := name (with_suffix p ".csv") in
  load_upsert fault (Payload p (with_suffix p ".csv")) w = (Ok tt, w') →
  ∃ f, incoming_dir w !! n = Some f ∧
       incoming_dir w' = delete n (delete csv (incoming_dir w)) ∧
       incoming_dir w' !! n = None ∧
       incoming_dir w' !! csv = None ∧
       archive_dir w' = <[n := f]> (archive_dir w) ∧
       error_dir w' = error_dir w.
Proof.
  intros p csv.
  assert (with_suffix p ".csv" = Path INCOMING_DIR csv) as -> by done.
  clearbody csv. subst p.
  unfold load_upsert, mbind, task_bind at 1 2, unlink_missing_ok, shutil_move.
  cbn [filepath tmp_csv].
  destruct (db_work fault _ w) as [[[]|] w1] eqn:Hdb; [|done].
  apply db_work_Ok in Hdb as (h & rs & st & table & _ & _ & _ & _ & ->).
  unfold read_file, remove_file, write_file. cbn.
  destruct (decide (n = csv)) as [<-|Hne].
  - by rewrite lookup_delete_eq.
  - rewrite lookup_delete_ne by done.
    destruct (incoming_dir w !! n) as [f|] eqn:Hf; [|done].
    intros [= <-]. exists f. cbn. split_and!; try done.
    + apply lookup_delete_eq.
    + rewrite lookup_delete_ne by done. apply lookup_delete_eq.
Qed.

(** One file through both tasks. *)
Lemma end_to_end_one_file `{Scalars} fault n f pl w1 w2 :
  validate_and_transform (Path INCOMING_DIR n) (MkWorld {[n := f]} ∅ ∅ ∅) = (Ok pl, w1) →
  load_upsert fault pl w1 = (Ok tt, w2) →
  incoming_dir w2 = ∅ ∧ archive_dir w2 = {[n := f]} ∧ error_dir w2 = ∅.
Proof.
  intros (df & out & _ & _ & -> & ->)%validate_and_transform_Ok%transform_body_Ok.
  set (p := Path INCOMING_DIR n). set (csv := name (with_suffix p ".csv")).
  assert (with_suffix p ".csv" = Path INCOMING_DIR csv) as -> by done.
  clearbody csv. subst p.
  unfold load_upsert, mbind, task_bind at 1 2, unlink_missing_ok, shutil_move.
  cbn [filepath tmp_csv].
  destruct (db_work fault _ _) as [[[]|] w'] eqn:Hdb; [|done].
  apply db_work_Ok in Hdb as (h & rs & st & table & _ & _ & _ & _ & ->).
  unfold read_file, remove_file, write_file. cbn.
  rewrite delete_insert_eq.
  destruct (decide (n = csv)) as [<-|Hne].
  - by rewrite lookup_delete_eq.
  - rewrite lookup_delete_ne, lookup_singleton_eq by done.
    intros [= <-]. cbn. split_and!; [|done..].
    rewrite delete_singleton_ne by done. apply delete_singleton_eq.
Qed.

(** ** The tasks on the sample inputs *)

Lemma list_excel_files_sorted_example :
  (list_excel_files
     (MkWorld (list_to_map [("b.xlsx", OtherFile); ("a.XLSX", OtherFile);
                            ("~$b.xlsx", OtherFile); ("notes.txt", OtherFile)])
              ∅ ∅ ∅)).1 =
  Ok [Path INCOMING_DIR "a.XLSX"; Path INCOMING_DIR "b.xlsx"].
Proof. vm_compute; reflexivity. Qed.

Lemma mixed_case_extension_is_skipped :
  ¬ (∀ w n,
       is_Some (incoming_dir w !! n) →
       xlsx_extension_ignoring_case n →
       startswith "~$" n = false →
       ∃ files, list_excel_files w = (Ok files, w) ∧ Path INCOMING_DIR n ∈ files).
Proof.
  intros Hall.
  destruct (Hall (Sample.only "report.Xlsx" (Workbook Sample.good)) "report.Xlsx")
    as (files & Hrun & _).
  - exists (Workbook Sample.good). vm_compute; reflexivity.
  - vm_compute; reflexivity.
  - vm_compute; reflexivity.
  - vm_compute in Hrun. discriminate Hrun.
Qed.

Lemma discovery_matches_two_spellings_witness :
  is_Some (incoming_dir (Sample.only "report.XLSX" (Workbook Sample.good)) !! "report.XLSX") ∧
  startswith "~$" "report.XLSX" = false ∧
  ((∃ files,
      list_excel_files (Sample.only "report.XLSX" (Workbook Sample.good)) =
        (Ok files, Sample.only "report.XLSX" (Workbook Sample.good)) ∧
      Path INCOMING_DIR "report.XLSX" ∈ files) ↔
   excel_name "report.XLSX").
Proof.
  assert (is_Some (incoming_dir (Sample.only "report.XLSX" (Workbook Sample.good))
                     !! "report.XLSX")) as Hfile.
  { exists (Workbook Sample.good). vm_compute; reflexivity. }
  split; [exact Hfile|]. split; [reflexivity|].
  apply discovery_matches_two_spellings; [exact Hfile|reflexivity].
Defined.

Lemma sheet_without_brand_is_rejected_witness :
  validate_and_transform (H := Plain.scalars) (Sample.incoming "nobrand.xlsx")
    (Sample.only "nobrand.xlsx" (Workbook Sample.no_brand)) =
  (Raise (TransformFailed "nobrand.xlsx"
            (MissingColumns ["brand"]
               ["id"; "name_sales_code"; "date_order"; "amount_total"])),
   MkWorld ∅ ∅ {["nobrand.xlsx" := Workbook Sample.no_brand]} ∅).
Proof.
  pose proof (sheet_without_brand_is_rejected (H := Plain.scalars) "nobrand.xlsx"
                (Sample.only "nobrand.xlsx" (Workbook Sample.no_brand))
                Sample.no_brand) as Hrun.
  unfold Sample.incoming. rewrite Hrun.
  - vm_compute; reflexivity.
  - vm_compute; reflexivity.
  - repeat constructor.
  - apply (bool_decide_unpack _). vm_compute; reflexivity.
Defined.

Lemma blank_id_fails_the_file_witness :
  has_required_columns Sample.blank_id ∧
  ∃ e, transform_frame (H := Plain.scalars) Sample.blank_id = Raise e.
Proof.
  assert (has_required_columns Sample.blank_id) as Hc by repeat constructor.
  split; [exact Hc|].
  apply (blank_id_fails_the_file (H := Plain.scalars) Sample.blank_id
           (Sample.row NaN (Str "S2") (Str "2025-01-03") (Num 20) (Str "acme")));
    [exact Hc|repeat constructor|by vm_compute].
Defined.

Lemma blank_id_raises_IntCastingNaNError :
  transform_frame (H := Plain.scalars) Sample.blank_id = Raise IntCastingNaNError.
Proof. vm_compute; reflexivity. Qed.

Lemma transform_failure_moves_file_to_error_witness :
  validate_and_transform (H := Plain.scalars) (Sample.incoming "bad.xlsx")
    (Sample.only "bad.xlsx" (Workbook Sample.text_id)) =
  (Raise (TransformFailed "bad.xlsx" (UnableToParse (Str "abc"))),
   MkWorld ∅ ∅ {["bad.xlsx" := Workbook Sample.text_id]} ∅) ∧
  ∃ cause,
    TransformFailed "bad.xlsx" (UnableToParse (Str "abc")) = TransformFailed "bad.xlsx" cause ∧
    transform_body (H := Plain.scalars) (Sample.incoming "bad.xlsx")
      (Sample.only "bad.xlsx" (Workbook Sample.text_id)) =
      (Raise cause, Sample.only "bad.xlsx" (Workbook Sample.text_id)).
Proof.
  assert (validate_and_transform (H := Plain.scalars) (Sample.incoming "bad.xlsx")
            (Sample.only "bad.xlsx" (Workbook Sample.text_id)) =
          (Raise (TransformFailed "bad.xlsx" (UnableToParse (Str "abc"))),
           MkWorld ∅ ∅ {["bad.xlsx" := Workbook Sample.text_id]} ∅)) as Hrun
    by (vm_compute; reflexivity).
  split; [exact Hrun|].
  destruct (transform_failure_moves_file_to_error (H := Plain.scalars) _ _ _ _ Hrun)
    as (cause & Hcause & Hbody & _).
  exists cause. by split.
Defined.

(** A move that fails is swallowed: the file is not there, the task fails
    all the same and nothing changes. *)
Lemma failed_move_is_swallowed :
  validate_and_transform (H := Plain.scalars) (Sample.incoming "gone.xlsx")
    (MkWorld ∅ ∅ ∅ ∅) =
  (Raise (TransformFailed "gone.xlsx" (FileNotFoundError "gone.xlsx")),
   MkWorld ∅ ∅ ∅ ∅).
Proof. vm_compute; reflexivity. Qed.

Lemma negative_amount_passes_through :
  ¬ (∀ df nf i r',
       normalize (H := Plain.scalars) df = Ok nf →
       rows nf !! i = Some r' →
       ∃ q, cell "totalsales" r' = Num q ∧ (0 <= q)%Q).
Proof.
  intros Hall.
  destruct (Hall Sample.amounts (Sample.normalized Sample.amounts) 1%nat
              (normalized_row (H := Plain.scalars) (Int64 2)
                 (Sample.row (Num 2) (Str "S2") (Str "2025-01-03") (Num (-5))
                    (Str "acme"))))
    as (q & Hq & Hpos).
  - vm_compute; reflexivity.
  - vm_compute; reflexivity.
  - vm_compute in Hq. injection Hq as <-. by apply Hpos.
Qed.

Lemma totalsales_is_parsed_or_zero_witness :
  has_required_columns Sample.amounts ∧
  ∃ nf, normalize (H := Plain.scalars) Sample.amounts = Ok nf ∧
    ∃ r', rows nf !! 0%nat = Some r' ∧ cell "totalsales" r' = Num 0.
Proof.
  assert (has_required_columns Sample.amounts) as Hc by repeat constructor.
  split; [exact Hc|].
  destruct (totalsales_is_parsed_or_zero (H := Plain.scalars) Sample.amounts Hc)
    as (nf & Hn & Hrows).
  { repeat constructor; eexists; vm_compute; reflexivity. }
  exists nf. split; [exact Hn|].
  destruct (Hrows 0%nat _ eq_refl) as (r' & Hr' & Htotal).
  exists r'. split; [exact Hr'|]. rewrite Htotal. vm_compute; reflexivity.
Defined.

Lemma missing_text_is_stored_as_nan_witness :
  normalize (H := Plain.scalars) Sample.blank_text = Ok (Sample.normalized Sample.blank_text) ∧
  ∃ r', rows (Sample.normalized Sample.blank_text) !! 0%nat = Some r' ∧
        r' !! "salescode" = Some (Str "nan") ∧ r' !! "brand" = Some (Str "nan").
Proof.
  assert (normalize (H := Plain.scalars) Sample.blank_text =
          Ok (Sample.normalized Sample.blank_text)) as Hn by (vm_compute; reflexivity).
  split; [exact Hn|].
  destruct (missing_text_is_stored_as_nan (H := Plain.scalars) _ _ 0%nat _ Hn eq_refl)
    as (r' & Hr' & _ & _ & Hs & Hb).
  exists r'. split; [exact Hr'|]. split; [by apply Hs|by apply Hb].
Defined.

Lemma load_upsert_overwrites_row_witness :
  sales_daily Sample.after_january !! 1%Z =
    Some (SalesCols (Some "S1") (Some (Sample.day 2)) (Some 10%Q) (Some "acme")) ∧
  load_upsert None (Sample.payload_of "feb.xlsx") Sample.after_january =
    (Ok tt, Sample.after_february) ∧
  sales_daily Sample.after_february !! 1%Z =
    Some (SalesCols (Some "S9") (Some (Sample.day 9)) (Some 999%Q) (Some "zen")).
Proof.
  assert (load_upsert None (Sample.payload_of "feb.xlsx") Sample.after_january =
          (Ok tt, Sample.after_february)) as Hrun by (vm_compute; reflexivity).
  split; [by vm_compute|]. split; [exact Hrun|].
  apply (load_upsert_overwrites_row _ _ _ _ Sample.csv_header
           [[Int64 1; Str "S9"; DateObj (Sample.day 9); Num 999; Str "zen"]]
           [StagingRow (Some 1%Z)
              (SalesCols (Some "S9") (Some (Sample.day 9)) (Some 999%Q) (Some "zen"))]
           _ _ Hrun).
  - vm_compute; reflexivity.
  - vm_compute; reflexivity.
  - left.
Defined.

Lemma load_failure_leaves_files_in_place_witness :
  db_work None (tmp_csv (Sample.payload_of "dup.xlsx")) Sample.repeated_id =
    (Raise (CardinalityViolation 1), Sample.repeated_id) ∧
  ∃ e, load_upsert None (Sample.payload_of "dup.xlsx") Sample.repeated_id =
         (Raise e, Sample.repeated_id).
Proof.
  assert (db_work None (tmp_csv (Sample.payload_of "dup.xlsx")) Sample.repeated_id =
          (Raise (CardinalityViolation 1), Sample.repeated_id)) as Hdb
    by (vm_compute; reflexivity).
  split; [exact Hdb|].
  apply load_failure_leaves_files_in_place. right. right.
  exists (CardinalityViolation 1), Sample.repeated_id. exact Hdb.
Defined.

(** The driver failing at the copy or at the merge. *)
Lemma driver_fault_leaves_files_in_place s :
  s = Copy ∨ s = Merge →
  ∃ e, load_upsert (Some s) (Sample.payload_of "jan.xlsx") Sample.two_files =
         (Raise e, Sample.two_files).
Proof. intros [->| ->]; eexists; vm_compute; reflexivity. Qed.

Lemma load_success_archives_file_witness :
  load_upsert None (Sample.payload_of "good.xlsx") Sample.transformed =
    (Ok tt, Sample.loaded) ∧
  incoming_dir Sample.loaded = ∅ ∧
  archive_dir Sample.loaded = {["good.xlsx" := Workbook Sample.good]} ∧
  error_dir Sample.loaded = ∅.
Proof.
  assert (load_upsert None (Sample.payload_of "good.xlsx") Sample.transformed =
          (Ok tt, Sample.loaded)) as Hrun by (vm_compute; reflexivity).
  split; [exact Hrun|].
  destruct (load_success_archives_file None "good.xlsx" _ _ Hrun)
    as (f & Hf & Hin & _ & _ & Harch & Herr).
  rewrite Hin, Harch, Herr. vm_compute in Hf. injection Hf as <-.
  repeat split; vm_compute; reflexivity.
Defined.

(** ** Names *)

Lemma app_cons c (a b : string) : String c a +:+ b = String c (a +:+ b).
Proof. done. Qed.

Lemma length_app (a b : string) :
  String.length (a +:+ b) = (String.length a + String.length b)%nat.
Proof. induction a as [|c a IH]; [done|]. rewrite app_cons. cbn. by rewrite IH. Qed.

Lemma substring_app_l (a b : string) : substring 0 (String.length a) (a +:+ b) = a.
Proof.
  induction a as [|c a IH]; [by destruct b|]. rewrite app_cons. cbn. by rewrite IH.
Qed.

Lemma substring_full (b : string) : substring 0 (String.length b) b = b.
Proof. induction b as [|c b IH]; [done|]. cbn. by rewrite IH. Qed.

Lemma substring_app_r (a b : string) :
  substring (String.length a) (String.length b) (a +:+ b) = b.
Proof.
  induction a as [|c a IH]; [apply substring_full|]. by rewrite app_cons.
Qed.

Lemma rfind_dot_app (a b : string) :
  is_Some (rfind_dot b) →
  rfind_dot (a +:+ b) = (λ i, (String.length a + i)%nat) <$> rfind_dot b.
Proof.
  intros [i Hi]. induction a as [|c a IH].
  - by rewrite Hi.
  - rewrite app_cons. cbn [rfind_dot]. rewrite IH, Hi. done.
Qed.

(** A name made of a non-empty stem and one extension. *)
Lemma stem_app (k ext : string) :
  k ≠ "" → rfind_dot ext = Some 0%nat → (1 < String.length ext)%nat →
  suffix_of_name (k +:+ ext) = ext ∧ stem (k +:+ ext) = k.
Proof.
  intros Hk Hdot Hlen.
  assert (0 < String.length k)%nat as Hpos by (destruct k; [done|cbn; lia]).
  assert (suffix_of_name (k +:+ ext) = ext) as Hsuffix.
  { unfold suffix_of_name. rewrite rfind_dot_app, Hdot by (by eexists). cbn [fmap option_fmap option_map].
    rewrite length_app, Nat.add_0_r.
    replace (0 <? String.length k)%nat with true by (symmetry; apply Nat.ltb_lt; lia).
    replace (String.length k <? String.length k + String.length ext - 1)%nat
      with true by (symmetry; apply Nat.ltb_lt; lia).
    cbn [andb]. replace (String.length k + String.length ext - String.length k)%nat
      with (String.length ext) by lia.
    apply substring_app_r. }
  split; [done|]. unfold stem. rewrite Hsuffix, length_app.
  replace (String.length k + String.length ext - String.length ext)%nat
    with (String.length k) by lia.
  apply substring_app_l.
Qed.

Lemma csv_name_of_excel_name d k ext :
  k ≠ "" → ext = ".xlsx" ∨ ext = ".XLSX" →
  with_suffix (Path d (k +:+ ext)) ".csv" = Path d (k +:+ ".csv").
Proof.
  intros Hk Hext. unfold with_suffix. cbn [parent name]. f_equal.
  destruct (stem_app k ext Hk) as [_ ->];
    [destruct Hext as [->| ->]; (reflexivity || (cbn; lia))..|done].
Qed.

Lemma app_inv_head_ne (k a b : string) : a ≠ b → k +:+ a ≠ k +:+ b.
Proof. intros Hne Heq. by apply (inj (String.app k)) in Heq. Qed.

Lemma csv_name_ne d n : excel_name n → name (with_suffix (Path d n) ".csv") ≠ n.
Proof.
  intros [[k ->]|[k ->]]; (destruct (decide (k = "")) as [->|Hk]; [by vm_compute|]).
  - rewrite (csv_name_of_excel_name d k ".xlsx") by auto.
    by apply app_inv_head_ne.
  - rewrite (csv_name_of_excel_name d k ".XLSX") by auto.
    by apply app_inv_head_ne.
Qed.

(** X1: for a name that discovery accepts, the artifact that
    [validate_and_transform] writes sits in the same directory under another
    name than the workbook; when the name is a non-empty stem followed by
    [.xlsx] or [.XLSX], the artifact is the stem followed by [.csv]. *)
Theorem artifact_is_beside_the_file d n :
  excel_name n →
  parent (with_suffix (Path d n) ".csv") = d ∧
  name (with_suffix (Path d n) ".csv") ≠ n ∧
  ∀ k ext, k ≠ "" → ext = ".xlsx" ∨ ext = ".XLSX" → n = k +:+ ext →
           name (with_suffix (Path d n) ".csv") = k +:+ ".csv".
Proof.
  intros Hn. split; [done|]. split; [by apply csv_name_ne|].
  intros k ext Hk Hext ->. by rewrite csv_name_of_excel_name.
Qed.


(** ** The staging table's name *)

Lemma join_safe_char c :
  is_ascii c →
  identifier_char
    (if py_isalnum (ascii_lower c) || Ascii.eqb (ascii_lower c) "_"
     then ascii_lower c else "_"%char) = true.
Proof.
  intros _. destruct c as [[] [] [] [] [] [] [] []]; vm_compute; reflexivity.
Qed.

Lemma chars_app (a b : string) :
  list_ascii_of_string (a +:+ b) = list_ascii_of_string a ++ list_ascii_of_string b.
Proof. induction a as [|c a IH]; [done|]. rewrite app_cons. cbn. by rewrite IH. Qed.

Lemma length_join_safe s : String.length (join_safe s) = String.length s.
Proof. induction s as [|c s IH]; [done|]. cbn. by rewrite IH. Qed.

Lemma length_lower s : String.length (lower s) = String.length s.
Proof. induction s as [|c s IH]; [done|]. cbn. by rewrite IH. Qed.

(** X3: for a file whose stem is ASCII, the name of the staging table is
    made of lower-case letters, digits and underscores only, and is the
    sixteen characters of the prefix followed by one character for each
    character of the stem. *)
Theorem staging_table_is_an_identifier p :
  Forall is_ascii (list_ascii_of_string (stem (name p))) →
  Forall (λ c, identifier_char c = true) (list_ascii_of_string (staging_table p)) ∧
  String.length (staging_table p) = (16 + String.length (stem (name p)))%nat.
Proof.
  intros Hascii. unfold staging_table, safe_stem. split.
  - rewrite chars_app. apply Forall_app. split; [by repeat constructor|].
    induction (stem (name p)) as [|c s IH]; [constructor|].
    cbn in Hascii |- *. apply Forall_cons in Hascii as [Hc Hs].
    constructor; [by apply join_safe_char|by apply IH].
  - by rewrite length_app, length_join_safe, length_lower.
Qed.

(** ** More on the frame work *)

Section frame_properties.
Context `{Scalars}.



Lemma check_columns_Raise df e :
  check_columns df = Raise e →
  ∃ m, e = MissingColumns m (columns df) ∧ m ≠ [] ∧
       m = filter (λ c, c ∉ columns df) (REQ_COLUMNS.*1).
Proof.
  unfold check_columns. destruct (filter _ _) as [|c m] eqn:Hm; [done|].
  intros [= <-]. by exists (c :: m).
Qed.

(** X4: a sheet that lacks a required column fails at the header check,
    before any cast: the exception names the missing columns, which are the
    keys of [REQ_COLUMNS] absent from the header, in the order of
    [REQ_COLUMNS], and the header that was found. *)
Theorem missing_columns_are_reported df :
  ¬ has_required_columns df →
  ∃ m, transform_frame df = Raise (MissingColumns m (columns df)) ∧
       m ≠ [] ∧ m `sublist_of` REQ_COLUMNS.*1 ∧
       ∀ c, c ∈ m ↔ c ∈ REQ_COLUMNS.*1 ∧ c ∉ columns df.
Proof.
  intros Hmissing.
  destruct (check_columns df) as [[]|e] eqn:Hc;
    [by apply check_columns_Ok in Hc|].
  destruct (check_columns_Raise _ _ Hc) as (m & -> & Hne & ->).
  eexists. split_and!; [|done| |].
  - unfold transform_frame, normalize. by rewrite Hc.
  - apply sublist_filter.
  - intros c. rewrite list_elem_of_filter. tauto.
Qed.


Lemma renamed_row_ext r r' :
  (∀ c, c ∈ REQ_COLUMNS.*1 → cell c r = cell c r') → renamed_row r = renamed_row r'.
Proof.
  intros Hcells. unfold renamed_row. cbn -[cell].
  rewrite !Hcells by (cbn; set_solver). done.
Qed.

Lemma normalized_row_ext i r r' :
  (∀ c, c ∈ REQ_COLUMNS.*1 → cell c r = cell c r') →
  normalized_row i r = normalized_row i r'.
Proof.
  intros Hcells. unfold normalized_row.
  rewrite (renamed_row_ext r r' Hcells).
  rewrite !Hcells by (cbn; set_solver). done.
Qed.

(** X6: the frame work reads the five required columns and nothing else:
    two sheets that have them and agree on them, row by row, give the same
    result, whatever other columns they carry and in whatever order. *)
Theorem other_columns_are_ignored df df' :
  has_required_columns df → has_required_columns df' →
  Forall2 (λ r r', ∀ c, c ∈ REQ_COLUMNS.*1 → cell c r = cell c r')
          (rows df) (rows df') →
  transform_frame df = transform_frame df'.
Proof.
  intros Hc Hc' Hrows. unfold transform_frame.
  rewrite !normalize_unfold by done.
  assert (cell "id" <$> rows df = cell "id" <$> rows df') as ->.
  { induction Hrows as [|r r' rs rs' Hr _ IH]; [done|].
    cbn. rewrite IH. f_equal. apply Hr. cbn. set_solver. }
  destruct (_ ≫= astype_int64) as [ids|]; [|done]. cbn [mbind result_bind].
  assert (zip_with normalized_row ids (rows df) =
          zip_with normalized_row ids (rows df')) as ->; [|done].
  clear Hc Hc'. revert ids.
  induction Hrows as [|r r' rs rs' Hr _ IH]; intros [|i ids]; [done..|].
  cbn. by rewrite IH, (normalized_row_ext i r r' Hr).
Qed.

Lemma stripped_str_of v : ∃ s, stripped (str_of v) = Str s.
Proof. by eexists. Qed.

Lemma fill_numeric_or_nan v : ∃ q, fill (Num 0) (numeric_or_nan v) = Num q.
Proof. unfold fill, numeric_or_nan. destruct (to_numeric_scalar v); by eexists. Qed.

Lemma normalized_row_typed z r :
  reads_as_date (cell "date_order" r) = true →
  typed_record (normalized_row (Int64 z) r).
Proof.
  intros Hd. destruct (cell_normalized_row (Int64 z) r) as (Hi & Hs & Hdate & Ht & Hb).
  unfold typed_record. rewrite Hi, Hs, Hdate, Ht, Hb.
  destruct (stripped_str_of (cell "name_sales_code" r)) as [s ->].
  destruct (stripped_str_of (cell "brand" r)) as [b ->].
  destruct (fill_numeric_or_nan (cell "amount_total" r)) as [q ->].
  unfold reads_as_date in Hd. unfold date_or_nat.
  destruct (to_datetime_scalar _) as [d| |]; [|done..].
  by exists z, s, d, q, b.
Qed.

Lemma keeps_normalized_row i r :
  (∃ z, i = Int64 z) →
  Forall (λ c, isna (cell c (normalized_row i r)) = false) ["id"; "dateorder"] ↔
  reads_as_date (cell "date_order" r) = true.
Proof.
  intros [z ->].
  destruct (cell_normalized_row (Int64 z) r) as (Hi & _ & Hdate & _).
  rewrite !Forall_cons, Hi, Hdate. unfold reads_as_date, date_or_nat.
  destruct (to_datetime_scalar _); cbn; split; try done; try tauto.
  all: by intros (_ & ? & _).
Qed.

(** The rows of the output, in terms of the rows of the input. *)
Lemma transform_frame_rows df out :
  transform_frame df = Ok out →
  Forall2 (λ r r', ∃ z, cast_id (cell "id" r) = Ok (Int64 z) ∧
                        r' = normalized_row (Int64 z) r)
          (filter (λ r, reads_as_date (cell "date_order" r) = true) (rows df))
          (rows out).
Proof.
  intros (nf & (_ & ids & Hids & ->)%normalize_Ok & ->)%transform_frame_Ok.
  cbn [rows]. induction Hids as [|r i rs ids Hi _ IH]; [constructor|].
  cbn [zip_with]. rewrite !filter_cons.
  destruct (cast_id_Ok _ _ Hi) as [z ->].
  destruct (decide (reads_as_date (cell "date_order" r) = true)) as [Hd|Hd].
  - rewrite decide_True by (by apply keeps_normalized_row; [eexists|]).
    constructor; [|done]. by exists z.
  - rewrite decide_False; [done|].
    intros Hk. apply Hd. eapply keeps_normalized_row; [|done]. by eexists.
Qed.


Lemma transform_frame_columns df out :
  transform_frame df = Ok out → columns out = FINAL_COLUMNS.
Proof. by intros (nf & _ & ->)%transform_frame_Ok. Qed.

Lemma transform_frame_typed df out :
  transform_frame df = Ok out → Forall typed_record (rows out).
Proof.
  intros Hrows%transform_frame_rows.
  apply Forall_forall. intros r' Hr'.
  apply list_elem_of_lookup_1 in Hr' as [i Hi].
  destruct (Forall2_lookup_r _ _ _ _ _ Hrows Hi) as (r & Hr & z & _ & ->).
  apply list_elem_of_lookup_2, list_elem_of_filter in Hr as [Hd _].
  by apply normalized_row_typed.
Qed.

(** X8: the output frame has the five final columns in the order of the
    staging table, and every row holds an int64 id, a text salescode, a date,
    a number and a text brand. *)
Theorem output_has_the_staging_schema df out :
  transform_frame df = Ok out →
  columns out = ["id"; "salescode"; "dateorder"; "totalsales"; "brand"] ∧
  Forall typed_record (rows out).
Proof.
  intros Hout. split; [by apply transform_frame_columns in Hout|].
  by apply transform_frame_typed in Hout.
Qed.
End frame_properties.

(** ** Trimming *)


Lemma chars_rev_app (s1 s2 : string) :
  list_ascii_of_string (String.rev_app s1 s2) =
  reverse (list_ascii_of_string s1) ++ list_ascii_of_string s2.
Proof.
  revert s2. induction s1 as [|c s1 IH]; intros s2; [done|].
  cbn [String.rev_app list_ascii_of_string]. rewrite IH.
  cbn [list_ascii_of_string]. by rewrite reverse_cons, <-app_assoc.
Qed.

Lemma chars_rev (s : string) :
  list_ascii_of_string (String.rev s) = reverse (list_ascii_of_string s).
Proof. unfold String.rev. by rewrite chars_rev_app, app_nil_r. Qed.

Lemma lstrip_starts_clean s : starts_clean (list_ascii_of_string (lstrip s)).
Proof.
  induction s as [|c s IH]; [done|]. cbn [lstrip].
  destruct (py_isspace c) eqn:Hc; [done|]. by cbn.
Qed.

Lemma lstrip_suffix s :
  list_ascii_of_string (lstrip s) `suffix_of` list_ascii_of_string s.
Proof.
  induction s as [|c s IH]; [done|]. cbn [lstrip].
  destruct (py_isspace c); [|done]. cbn. by apply suffix_cons_r.
Qed.

Lemma starts_clean_reverse_suffix (l' l : list ascii) :
  l' `suffix_of` l → starts_clean (reverse l) → starts_clean (reverse l').
Proof.
  intros [k ->]. rewrite reverse_app.
  destruct (reverse l') as [|c t]; [done|]. by cbn.
Qed.

Lemma strip_clean s :
  starts_clean (list_ascii_of_string (strip s)) ∧
  starts_clean (reverse (list_ascii_of_string (strip s))).
Proof.
  unfold strip. rewrite chars_rev, reverse_involutive. split.
  - eapply starts_clean_reverse_suffix; [apply lstrip_suffix|].
    rewrite chars_rev, reverse_involutive. apply lstrip_starts_clean.
  - apply lstrip_starts_clean.
Qed.

Lemma strip_trimmed s : trimmed (strip s).
Proof.
  destruct (strip_clean s) as [Hfirst Hlast]. split.
  - intros c rest Heq. by rewrite Heq in Hfirst.
  - intros c front Heq. rewrite Heq, chars_app, reverse_app in Hlast. done.
Qed.

Section text_properties.
Context `{Scalars}.

Lemma stripped_str_of_trimmed v : ∃ s, stripped (str_of v) = Str s ∧ trimmed s.
Proof. eexists. split; [done|]. apply strip_trimmed. Qed.

(** X9: in every output row, salescode and brand are text that neither
    starts nor ends with white space. *)
Theorem text_fields_are_trimmed_text df out r :
  transform_frame df = Ok out → r ∈ rows out →
  ∃ s b, cell "salescode" r = Str s ∧ cell "brand" r = Str b ∧
         trimmed s ∧ trimmed b.
Proof.
  intros Hrows%transform_frame_rows Hr.
  apply list_elem_of_lookup_1 in Hr as [i Hi].
  destruct (Forall2_lookup_r _ _ _ _ _ Hrows Hi) as (r0 & _ & z & _ & ->).
  destruct (cell_normalized_row (Int64 z) r0) as (_ & -> & _ & _ & ->).
  destruct (stripped_str_of_trimmed (cell "name_sales_code" r0)) as (s & -> & Hs).
  destruct (stripped_str_of_trimmed (cell "brand" r0)) as (b & -> & Hb).
  by exists s, b.
Qed.
End text_properties.

(** ** More on the merge *)

Lemma upsert_Ok_inv staging touched table table' :
  upsert staging touched table = Ok table' →
  Forall (λ r, ∃ k, id r = Some k ∧ k ∉ touched) staging ∧ NoDup (id <$> staging).
Proof.
  revert touched table. induction staging as [|r staging IH]; intros touched table.
  - intros _. split; constructor.
  - cbn [upsert]. destruct (id r) as [k|] eqn:Hk; [|done]. case_decide; [done|].
    intros [Hall Hnd]%IH. split.
    + constructor; [by exists k|].
      eapply Forall_impl; [done|]. intros r' (k' & ? & ?). exists k'. set_solver.
    + rewrite fmap_cons, Hk. constructor; [|done].
      intros (r' & Hr' & Hin)%list_elem_of_fmap.
      eapply Forall_forall in Hall as (k' & Hk' & Hfresh); [|done].
      rewrite Hk' in Hr'. injection Hr' as <-. set_solver.
Qed.


Lemma upsert_dom staging touched table table' :
  upsert staging touched table = Ok table' →
  ∀ k, is_Some (table' !! k) ↔ is_Some (table !! k) ∨ Some k ∈ id <$> staging.
Proof.
  revert touched table. induction staging as [|r staging IH]; intros touched table.
  - intros [= <-] k. rewrite fmap_nil, elem_of_nil. tauto.
  - cbn [upsert]. destruct (id r) as [k'|] eqn:Hk; [|done]. case_decide; [done|].
    intros Hup k. rewrite (IH _ _ Hup), fmap_cons, Hk, elem_of_cons.
    rewrite lookup_insert_is_Some. destruct (decide (k' = k)) as [->|]; [tauto|].
    split; [intros [[|[]]|]|intros [|[|]]]; try tauto; congruence.
Qed.

Lemma upsert_idempotent staging table table' :
  upsert staging ∅ table = Ok table' → upsert staging ∅ table' = Ok table'.
Proof.
  intros Hup. pose proof (upsert_Ok_inv _ _ _ _ Hup) as [Hall Hnd].
  destruct (upsert_NoDup_Ok staging ∅ table' Hall Hnd) as [table'' Hup'].
  rewrite Hup'. f_equal. apply map_eq. intros k.
  destruct (decide (Some k ∈ id <$> staging)) as [Hin|Hout].
  - apply list_elem_of_fmap in Hin as ([i c] & Hi & Hin). cbn in Hi. subst i.
    by rewrite (upsert_lookup _ _ _ _ _ _ Hup' Hin), (upsert_lookup _ _ _ _ _ _ Hup Hin).
  - apply (upsert_other _ _ _ _ _ Hup'). intros c Hc. apply Hout.
    apply list_elem_of_fmap. by exists (StagingRow (Some k) c).
Qed.

(** [db_work] when the driver behaves. *)
Lemma db_work_None t w :
  db_work None t w =
  match read_file t w with
  | None => (Raise (FileNotFoundError (name t)), w)
  | Some (CsvFile _ records) =>
      match mapM copy_record records with
      | Raise e => (Raise e, w)
      | Ok staging =>
          match upsert staging ∅ (sales_daily w) with
          | Raise e => (Raise e, w)
          | Ok table =>
              (Ok tt, MkWorld (incoming_dir w) (archive_dir w) (error_dir w) table)
          end
      end
  | Some _ => (Raise BadCopyFileFormat, w)
  end.
Proof.
  unfold db_work, mbind, task_bind, lift, copy_expert, commit.
  rewrite !db_step_ok_None. cbn [mbind result_bind].
  destruct (read_file t w) as [[|h records|]|]; done.
Qed.

(** [load_upsert] in terms of its database work. *)
Lemma load_upsert_unfold fault p w :
  load_upsert fault p w =
  match db_work fault (tmp_csv p) w with
  | (Raise e, w1) => (Raise e, w1)
  | (Ok _, w1) =>
      shutil_move (filepath p) (Path ARCHIVE_DIR (name (filepath p)))
        (remove_file (tmp_csv p) w1)
  end.
Proof.
  unfold load_upsert, mbind, task_bind at 1 2, unlink_missing_ok.
  by destruct (db_work _ _ _) as [[[]|] ?].
Qed.

(** X10: a load that returns leaves every row of [sales_daily] whose id is
    not in the artifact as it was, and deletes none: the ids of the table
    afterwards are those it had and those of the artifact. *)
Theorem load_keeps_other_rows fault p w w' header records
    (staging : list staging_row) :
  load_upsert fault p w = (Ok tt, w') →
  read_file (tmp_csv p) w = Some (CsvFile header records) →
  mapM copy_record records = Ok staging →
  (∀ k, Some k ∉ id <$> staging → sales_daily w' !! k = sales_daily w !! k) ∧
  (∀ k, is_Some (sales_daily w' !! k) ↔
        is_Some (sales_daily w !! k) ∨ Some k ∈ id <$> staging).
Proof.
  rewrite load_upsert_unfold.
  destruct (db_work fault (tmp_csv p) w) as [[[]|] w1] eqn:Hdb; [|done].
  apply db_work_Ok in Hdb as (h & rs & st & table & _ & Hread & Hst & Hup & ->).
  unfold shutil_move. destruct (read_file (filepath p) _) as [f|]; [|done].
  intros [= <-] Hread' Hst'. assert (st = staging) as -> by congruence.
  rewrite sales_daily_write_file, !sales_daily_remove_file. cbn [sales_daily].
  split.
  - intros k Hk. apply (upsert_other _ _ _ _ _ Hup). intros c Hc. apply Hk.
    apply list_elem_of_fmap. by exists (StagingRow (Some k) c).
  - by eapply upsert_dom.
Qed.

(** X11: loading twice the same records, from two artifacts, leaves the
    table after the second load as it was after the first. *)
Theorem reloading_the_same_rows_changes_nothing p1 p2 w w1 w2 h1 h2 records :
  load_upsert None p1 w = (Ok tt, w1) →
  load_upsert None p2 w1 = (Ok tt, w2) →
  read_file (tmp_csv p1) w = Some (CsvFile h1 records) →
  read_file (tmp_csv p2) w1 = Some (CsvFile h2 records) →
  sales_daily w2 = sales_daily w1.
Proof.
  rewrite !load_upsert_unfold.
  destruct (db_work None (tmp_csv p1) w) as [[[]|] w1'] eqn:Hdb1; [|done].
  apply db_work_Ok in Hdb1 as (? & rs1 & st1 & t1 & _ & Hread1 & Hst1 & Hup1 & ->).
  unfold shutil_move at 1. destruct (read_file (filepath p1) _) as [f1|]; [|done].
  intros [= <-].
  destruct (db_work None (tmp_csv p2) _) as [[[]|] w2'] eqn:Hdb2; [|done].
  apply db_work_Ok in Hdb2 as (? & rs2 & st2 & t2 & _ & Hread2 & Hst2 & Hup2 & ->).
  unfold shutil_move. destruct (read_file (filepath p2) _) as [f2|]; [|done].
  intros [= <-] Hr1 Hr2.
  rewrite !sales_daily_write_file, !sales_daily_remove_file in *.
  cbn [sales_daily] in *.
  assert (rs1 = records) as -> by congruence.
  assert (rs2 = records) as -> by congruence.
  assert (st2 = st1) as -> by congruence.
  apply upsert_idempotent in Hup1. congruence.
Qed.

(** X12: whatever [load_upsert] does with a payload of the incoming
    directory, it leaves the error directory as it was, and it changes the
    archive only when it returns. *)
Theorem load_never_touches_the_error_directory fault n csv w r w' :
  load_upsert fault (Payload (Path INCOMING_DIR n) (Path INCOMING_DIR csv)) w = (r, w') →
  error_dir w' = error_dir w ∧
  (r ≠ Ok tt → archive_dir w' = archive_dir w).
Proof.
  rewrite load_upsert_unfold. cbn [filepath tmp_csv].
  destruct (db_work fault _ w) as [[[]|e] w1] eqn:Hdb.
  - apply db_work_Ok in Hdb as (? & ? & ? & ? & _ & _ & _ & _ & ->).
    unfold shutil_move, read_file, remove_file, write_file. cbn.
    destruct (delete csv (incoming_dir w) !! n); by intros [= <- <-].
  - apply db_work_Raise in Hdb as ->. by intros [= <- <-].
Qed.

(** X13: the file work comes after the commit and nothing undoes a commit.
    When the database work succeeds and the workbook is not in the incoming
    directory, the task raises [FileNotFoundError] for the workbook with the
    merged rows committed, the artifact deleted and nothing archived; run
    again on that world it fails on the missing artifact. *)
Theorem commit_is_kept_when_the_archive_move_fails fault n csv w w1 :
  db_work fault (Path INCOMING_DIR csv) w = (Ok tt, w1) →
  incoming_dir w !! n = None →
  ∃ w',
    load_upsert fault (Payload (Path INCOMING_DIR n) (Path INCOMING_DIR csv)) w =
      (Raise (FileNotFoundError n), w') ∧
    sales_daily w' = sales_daily w1 ∧
    incoming_dir w' !! csv = None ∧
    archive_dir w' = archive_dir w ∧
    load_upsert fault (Payload (Path INCOMING_DIR n) (Path INCOMING_DIR csv)) w' =
      (Raise (FileNotFoundError csv), w').
Proof.
  intros Hdb Hn. rewrite load_upsert_unfold. cbn [filepath tmp_csv]. rewrite Hdb.
  pose proof Hdb as (? & ? & ? & table & -> & _ & _ & _ & ->)%db_work_Ok.
  unfold shutil_move, read_file, remove_file. cbn.
  assert (delete csv (incoming_dir w) !! n = None) as ->.
  { apply lookup_delete_None. by right. }
  eexists. split; [done|]. cbn. split_and!; [done| |done|].
  - apply lookup_delete_eq.
  - rewrite load_upsert_unfold, db_work_None. cbn [tmp_csv].
    unfold read_file. cbn. by rewrite lookup_delete_eq.
Qed.

(** ** From the transform to the load *)




Section pipeline.
Context `{Scalars}.

Lemma validate_and_transform_artifact n w pl w1 :
  validate_and_transform (Path INCOMING_DIR n) w = (Ok pl, w1) →
  ∃ df out,
    incoming_dir w !! n = Some (Workbook df) ∧
    transform_frame df = Ok out ∧
    pl = Payload (Path INCOMING_DIR n) (with_suffix (Path INCOMING_DIR n) ".csv") ∧
    w1 = MkWorld
           (<[name (with_suffix (Path INCOMING_DIR n) ".csv") :=
                CsvFile FINAL_COLUMNS
                  ((λ r, (λ c, cell c r) <$> FINAL_COLUMNS) <$> rows out)]>
              (incoming_dir w))
           (archive_dir w) (error_dir w) (sales_daily w).
Proof.
  intros (df & out & Hread & Hout & -> & ->)%validate_and_transform_Ok%transform_body_Ok.
  exists df, out. split_and!; [done..|].
  by rewrite (transform_frame_columns _ _ Hout).
Qed.

(** X14: when [validate_and_transform] returns, it has written the
    artifact, whose header is [id,salescode,dateorder,totalsales,brand], in
    the incoming directory and changed nothing else: archive, error
    directory and table are as before, and a workbook that discovery accepts
    is still in place.  The payload is the workbook's path and the
    artifact's. *)
Theorem transform_success_only_adds_the_artifact n w pl w1 :
  validate_and_transform (Path INCOMING_DIR n) w = (Ok pl, w1) →
  pl = Payload (Path INCOMING_DIR n) (with_suffix (Path INCOMING_DIR n) ".csv") ∧
  (∃ records,
     incoming_dir w1 =
       <[name (tmp_csv pl) :=
           CsvFile ["id"; "salescode"; "dateorder"; "totalsales"; "brand"] records]>
         (incoming_dir w)) ∧
  (excel_name n → incoming_dir w1 !! n = incoming_dir w !! n) ∧
  archive_dir w1 = archive_dir w ∧
  error_dir w1 = error_dir w ∧
  sales_daily w1 = sales_daily w.
Proof.
  intros (df & out & _ & _ & -> & ->)%validate_and_transform_artifact.
  cbn [tmp_csv incoming_dir archive_dir error_dir sales_daily].
  split_and!; [done|by eexists| |done..].
  intros Hn. apply lookup_insert_ne. by apply csv_name_ne.
Qed.


End pipeline.

(** ** The added properties on the sample inputs *)

Lemma artifact_is_beside_the_file_witness :
  excel_name "report.xlsx" ∧
  name (with_suffix (Sample.incoming "report.xlsx") ".csv") = "report.csv".
Proof.
  assert (excel_name "report.xlsx") as Hn by (left; by exists "report").
  split; [exact Hn|].
  destruct (artifact_is_beside_the_file INCOMING_DIR "report.xlsx" Hn)
    as (_ & _ & Hcsv).
  apply (Hcsv "report" ".xlsx"); [discriminate|by left|reflexivity].
Defined.


Lemma staging_table_is_an_identifier_witness :
  staging_table (Sample.incoming "Jan-2025 Sales.xlsx") =
    "stg_sales_daily_jan_2025_sales" ∧
  Forall (λ c, identifier_char c = true)
    (list_ascii_of_string (staging_table (Sample.incoming "Jan-2025 Sales.xlsx"))).
Proof.
  split; [vm_compute; reflexivity|].
  apply (staging_table_is_an_identifier (Sample.incoming "Jan-2025 Sales.xlsx")).
  apply (bool_decide_unpack _). vm_compute; reflexivity.
Defined.

Lemma missing_columns_are_reported_witness :
  ¬ has_required_columns Sample.no_brand ∧
  ∃ m, transform_frame (H := Plain.scalars) Sample.no_brand =
         Raise (MissingColumns m (columns Sample.no_brand)) ∧ m ≠ [].
Proof.
  assert (¬ has_required_columns Sample.no_brand) as Hmissing.
  { unfold has_required_columns. apply (bool_decide_unpack _).
    vm_compute; reflexivity. }
  split; [exact Hmissing|].
  destruct (missing_columns_are_reported (H := Plain.scalars) _ Hmissing)
    as (m & Hm & Hne & _).
  by exists m.
Defined.


Lemma other_columns_are_ignored_witness :
  transform_frame (H := Plain.scalars) Sample.good =
  transform_frame (H := Plain.scalars) More.with_note.
Proof.
  apply other_columns_are_ignored.
  - repeat constructor.
  - repeat constructor.
  - repeat constructor. intros c Hc. cbn in Hc.
    rewrite !elem_of_cons, elem_of_nil in Hc.
    destruct Hc as [->|[->|[->|[->|[->|[]]]]]]; vm_compute; reflexivity.
Defined.


Lemma output_has_the_staging_schema_witness :
  transform_frame (H := Plain.scalars) More.three_rows =
    Ok (More.transformed More.three_rows) ∧
  columns (More.transformed More.three_rows) =
    ["id"; "salescode"; "dateorder"; "totalsales"; "brand"].
Proof.
  assert (transform_frame (H := Plain.scalars) More.three_rows =
          Ok (More.transformed More.three_rows)) as Hout
    by (vm_compute; reflexivity).
  split; [exact Hout|].
  by destruct (output_has_the_staging_schema (H := Plain.scalars) _ _ Hout).
Defined.

Lemma text_fields_are_trimmed_text_witness :
  rows (More.transformed More.three_rows) !! 0%nat = Some More.first_out ∧
  cell "salescode" More.first_out = Str "S1" ∧
  ∃ s b, cell "salescode" More.first_out = Str s ∧
         cell "brand" More.first_out = Str b ∧ trimmed s ∧ trimmed b.
Proof.
  assert (transform_frame (H := Plain.scalars) More.three_rows =
          Ok (More.transformed More.three_rows)) as Hout
    by (vm_compute; reflexivity).
  assert (rows (More.transformed More.three_rows) !! 0%nat = Some More.first_out)
    as Hfirst by (vm_compute; reflexivity).
  split; [exact Hfirst|]. split; [vm_compute; reflexivity|].
  apply (text_fields_are_trimmed_text (H := Plain.scalars) _ _ _ Hout).
  by eapply list_elem_of_lookup_2.
Defined.

Lemma load_keeps_other_rows_witness :
  load_upsert None (Sample.payload_of "a.xlsx") More.same_rows = (Ok tt, More.after_a) ∧
  sales_daily More.after_a !! 7%Z = Some (SalesCols None None None None) ∧
  is_Some (sales_daily More.after_a !! 1%Z).
Proof.
  assert (load_upsert None (Sample.payload_of "a.xlsx") More.same_rows =
          (Ok tt, More.after_a)) as Hrun by (vm_compute; reflexivity).
  split; [exact Hrun|].
  destruct (load_keeps_other_rows _ _ _ _ Sample.csv_header
              [[Int64 1; Str "S1"; DateObj (Sample.day 2); Num 10; Str "acme"]]
              [StagingRow (Some 1%Z)
                 (SalesCols (Some "S1") (Some (Sample.day 2)) (Some 10%Q)
                    (Some "acme"))]
              Hrun) as [Hother Hdom]; [vm_compute; reflexivity..|].
  split.
  - rewrite Hother; [vm_compute; reflexivity|].
    cbn. rewrite list_elem_of_singleton. discriminate.
  - apply Hdom. right. cbn. left.
Defined.

Lemma reloading_the_same_rows_changes_nothing_witness :
  load_upsert None (Sample.payload_of "a.xlsx") More.same_rows = (Ok tt, More.after_a) ∧
  load_upsert None (Sample.payload_of "b.xlsx") More.after_a = (Ok tt, More.after_b) ∧
  sales_daily More.after_b = sales_daily More.after_a.
Proof.
  assert (load_upsert None (Sample.payload_of "a.xlsx") More.same_rows =
          (Ok tt, More.after_a)) as Ha by (vm_compute; reflexivity).
  assert (load_upsert None (Sample.payload_of "b.xlsx") More.after_a =
          (Ok tt, More.after_b)) as Hb by (vm_compute; reflexivity).
  split; [exact Ha|]. split; [exact Hb|].
  apply (reloading_the_same_rows_changes_nothing _ _ _ _ _ Sample.csv_header
           Sample.csv_header
           [[Int64 1; Str "S1"; DateObj (Sample.day 2); Num 10; Str "acme"]]
           Ha Hb); vm_compute; reflexivity.
Defined.

Lemma load_never_touches_the_error_directory_witness :
  error_dir (load_upsert None (Sample.payload_of "dup.xlsx") Sample.repeated_id).2 =
    error_dir Sample.repeated_id.
Proof.
  destruct (load_never_touches_the_error_directory None "dup.xlsx" "dup.csv"
              Sample.repeated_id
              (load_upsert None (Sample.payload_of "dup.xlsx") Sample.repeated_id).1
              (load_upsert None (Sample.payload_of "dup.xlsx") Sample.repeated_id).2)
    as [Herr _]; [|exact Herr].
  apply surjective_pairing.
Defined.

Lemma commit_is_kept_when_the_archive_move_fails_witness :
  db_work None (Sample.incoming "orphan.csv") More.orphan =
    (Ok tt, More.orphan_committed) ∧
  ∃ w',
    load_upsert None (Payload (Sample.incoming "orphan.xlsx")
                              (Sample.incoming "orphan.csv")) More.orphan =
      (Raise (FileNotFoundError "orphan.xlsx"), w') ∧
    is_Some (sales_daily w' !! 1%Z).
Proof.
  assert (db_work None (Sample.incoming "orphan.csv") More.orphan =
          (Ok tt, More.orphan_committed)) as Hdb by (vm_compute; reflexivity).
  split; [exact Hdb|].
  destruct (commit_is_kept_when_the_archive_move_fails None "orphan.xlsx"
              "orphan.csv" More.orphan More.orphan_committed Hdb)
    as (w' & Hrun & Htable & _); [vm_compute; reflexivity|].
  exists w'. split; [exact Hrun|]. rewrite Htable.
  eexists. vm_compute; reflexivity.
Defined.

Lemma transform_success_only_adds_the_artifact_witness :
  validate_and_transform (H := Plain.scalars) (Sample.incoming "good.xlsx")
    (Sample.only "good.xlsx" (Workbook Sample.good)) =
    (Ok (Sample.payload_of "good.xlsx"), Sample.transformed) ∧
  incoming_dir Sample.transformed !! "good.xlsx" = Some (Workbook Sample.good) ∧
  archive_dir Sample.transformed = ∅.
Proof.
  assert (validate_and_transform (H := Plain.scalars) (Sample.incoming "good.xlsx")
            (Sample.only "good.xlsx" (Workbook Sample.good)) =
          (Ok (Sample.payload_of "good.xlsx"), Sample.transformed)) as Hrun
    by (vm_compute; reflexivity).
  split; [exact Hrun|].
  destruct (transform_success_only_adds_the_artifact (H := Plain.scalars) _ _ _ _ Hrun)
    as (_ & _ & Hfile & Harchive & _).
  split; [|exact Harchive].
  rewrite Hfile; [vm_compute; reflexivity|]. left. by exists "good".
Defined.


